(* ===== verification/_CoqProject ===== *)
-Q . S2P
Prelude.v
Timestamp.v
Analysis.v
Transform.v
Json.v
Log.v
Schema.v
World.v
Script.v
