(* ===== verification/Prelude.v ===== *)
(** * Verification of the OCR layout-log script ([src/main.py])

    The program.  [src/main.py] is a straight-line Python script with
    these parts, run in this order:
    - configuration (lines 12-18): it reads
      [DOCUMENT_INTELLIGENCE_ENDPOINT] and [DOCUMENT_INTELLIGENCE_KEY]
      from the environment and raises [RuntimeError] when either is unset
      or empty (Python truthiness: [not ""] holds);
    - client construction (lines 24-27): a [DocumentIntelligenceClient];
      nothing goes over the network yet;
    - input check (lines 33-35): [os.path.exists("sample.jpg")], or
      [FileNotFoundError];
    - log path (lines 41-45): [os.makedirs("logs", exist_ok=True)], then
      [datetime.now().strftime("%Y%m%d_%H%M%S")] and
      [os.path.join("logs", f"analyze_result_{timestamp}.json")];
    - analysis (lines 51-57): the input is opened in a [with] block,
      [begin_analyze_document] sends it to the service, and
      [poller.result()] waits for the [AnalyzeResult];
    - result transformation (lines 63-88): the result is reshaped into a
      dict [{content, pages: [{page_number, width, height, unit,
      lines: [{content, bounding_polygon: [{x, y}]}]}]}];
    - log write (lines 94-98): [json.dump] into the log file, then a
      message that names the path.

    The development.  The files, in dependency order:
    - [Prelude] (this file).  The Python runtime the script relies on.
      It holds the exceptions ([pyexc]) and the result type [res] with
      its [let?] notation.  It holds Python truthiness of optional
      strings and lists, and iteration over an optional list ([py_iter]:
      iterating [None] raises [TypeError]).  It holds the loop idiom
      [for x in xs: acc.append(f(x))] ([for_append]), the Python values
      the output dict is made of ([pyval]), and a state-and-exception
      monad [stexc] for the effectful part.  Its lemmas cover [mapR]
      (map in [res]) and [for_append], which the later files share.
    - [Timestamp].  [datetime] values, the fixed-width decimal padding
      behind [strftime("%Y%m%d_%H%M%S")], the log file name and path.
      Its theorems: the stamp is 15 characters long and parses back to
      the date and time (a round trip); two times give the same stamp
      exactly when they agree to the second; the stamps sort in
      chronological order.
    - [Analysis].  The SDK's result objects ([AnalyzeResult],
      [DocumentPage], [DocumentLine]) as records whose attributes are
      [option]s, as on the SDK's dict-backed models.  A polygon element
      is either a point with [x]/[y] (the shape the spec assumes) or a
      bare float (the flat coordinate list that
      [azure-ai-documentintelligence] 1.x returns).  It also holds the
      spec's typed data model ([Spec] module: every field present, every
      polygon made of points) and its embedding into the SDK shape.
    - [Transform].  Lines 63-88, translated loop by loop.  It gives the
      functional behaviour of each branch, including the [TypeError] and
      [AttributeError] paths.  It proves that the append loops equal a
      map and that the result has exactly the documented shape.  Its
      main theorem is a refinement: on a well-formed result, the code's
      transform equals the spec's typed transform followed by the
      encoding into Python values.
    - [Json].  What [json.dump(v, f, ensure_ascii=False, indent=2)]
      writes (line 95), as CPython's [json.encoder] builds it: the
      [ESCAPE_DCT] string escapes with [\u00XX] for the other control
      characters and every other byte copied (strings are their UTF-8
      bytes), [int.__repr__] for integers, [repr] for floats ([NaN],
      [Infinity] for the special ones), and the [indent=2] layout with
      the separators [","] and [": "].  It also holds a JSON reader for
      this fragment, a specification used only by the theorems.  Its
      theorems: the text reads back as the value (a round trip), the
      only control character in it is the indentation's line feed, and
      non-ASCII text is written as it is.  It also holds the chunk
      generator of [_make_iterencode] ([iterencode]), which is what
      [json.dump] really writes, one [fp.write] per chunk, and proves
      that the chunks joined are the text.
    - [Log].  The log document: the transform of [Transform] keeps the
      floats of the result finite, so its dict is a value the [Json]
      round trip applies to.
    - [Schema].  A small type language for the dict (objects with
      fixed keys, lists, nullable scalars), its typing judgment
      [has_schema] and the checker [conforms] that decides it.  The
      transform's output always has the log's schema of spec sections
      3-4, with the copied attributes nullable.
    - [World].  The world the script runs in: the environment, a file
      system ([gmap] from paths to files and directories), the clock,
      the analysis service (a function from the bytes sent to an
      outcome) and a trace of observable events (client creation,
      network request, file opens and closes, output).  The library
      calls are its operations: [os.getenv], [os.path.exists],
      [os.makedirs], [datetime.now], [posixpath.dirname], [open] in
      both modes, [f.write], [json.dump] (the loop of [fp.write] over
      the chunks of [Json.iterencode]) and the client's request.  Its
      lemmas give the effect of each call; on the file [open(p, "w")]
      has just created, [json.dump] leaves the text [json_dumps v].
    - [Script].  The script's statements as programs of the [stexc]
      monad over the world, and [main] running them in the order of the
      source.  Its theorems give the order of the failure checks (no
      network request on a configuration or input error), say that no
      log file is written unless the whole transform succeeded, and
      show what a successful run writes and where: a log file whose
      text reads back as the transformed dict.  Every file the script
      opens is closed on every path, and nothing but [logs] and the log
      path changes.  Two runs in the same
      second write the same log path, so the second overwrites the
      first.

    Bounds and fuel.  All recursion of the program's model is
    structural.  The JSON reader of [Json] runs on fuel, one unit per
    value it reads; [json_loads] gives it one more than the length of
    the text, which is enough because a value has at most as many
    nested values as its text has characters ([json_size_length]).
    The timestamp theorems assume a valid [datetime] with a four-digit
    year (1000..9999).  [datetime] allows years 1..9999, but for years
    below 1000 the padding of ["%Y"] depends on the platform's
    [strftime].

    Not modelled.  The service itself, that is, OCR and the HTTP
    protocol behind [begin_analyze_document]/[poller.result()]: it is an
    oracle of the world.  The SDK's deserialisation of the service's
    JSON into the result objects: [Analysis] takes the objects as they
    come.  The messages of the exceptions the OS raises: they are
    modelled by their class, their [strerror] for [FileNotFoundError],
    and the path they name; the script's own messages (lines 17, 35
    and 98) are modelled as their UTF-8 bytes.  Strings are their UTF-8
    bytes, so a [str] holding a lone surrogate, which the log file's
    UTF-8 codec refuses in the middle of [json.dump], cannot be
    expressed: in the model the dump always succeeds.  A float is modelled by
    its [repr] ([pyfloat]): Python's shortest repr is injective on
    finite floats, the script only copies floats, and [json.dump]
    writes that repr.

    Planned next.  The SDK's deserialisation of the result objects
    (which attributes the service may omit), and the CPython messages
    of the OS errors. *)

From Stdlib Require Import String ZArith.
From stdpp Require Import base list.

(** This file: the Python runtime model shared by all components. *)

Declare Scope py_scope.
Delimit Scope py_scope with py.

(** ** Exceptions *)

(** Failures of the Azure client: [HttpResponseError] carries the HTTP
    status (authentication, quota, a failed analysis);
    [ServiceRequestError] is a failure to reach the service. *)
Inductive service_error :=
  | HttpResponseError (status : Z)
  | ServiceRequestError.

(** The exception classes the script can raise.  [RuntimeError] and
    [FileNotFoundError] carry the message [str(e)] the script gives
    them; a [FileNotFoundError] raised by the OS carries its [strerror]
    and the [filename] it names, one the script raises has no filename.
    The other file errors only come from the OS and carry the path. *)
Inductive pyexc :=
  | RuntimeError (msg : string)
  | FileNotFoundError (msg : string) (filename : option string)
  | FileExistsError (path : string)
  | IsADirectoryError (path : string)
  | NotADirectoryError (path : string)
  | TypeError
  | AttributeError
  | AzureError (e : service_error).

(** ** Results: a value or a raised exception *)

Inductive res (A : Type) : Type :=
  | Ok (a : A)
  | Err (e : pyexc).
Arguments Ok {A} a.
Arguments Err {A} e.

Definition res_bind {A B} (c : res A) (k : A -> res B) : res B :=
  match c with
  | Ok a => k a
  | Err e => Err e
  end.

Notation "'let?' x ':=' c 'in' k" := (res_bind c (fun x => k))
  (at level 10, x name, c at level 100, k at level 200) : py_scope.

Definition is_ok {A} (r : res A) : bool :=
  match r with Ok _ => true | Err _ => false end.

Local Open Scope py_scope.

(** [[f(x) for x in xs]] when [f] may raise: the first exception wins. *)
Fixpoint mapR {A B} (f : A -> res B) (xs : list A) : res (list B) :=
  match xs with
  | [] => Ok []
  | x :: xs' => let? y := f x in let? ys := mapR f xs' in Ok (y :: ys)
  end.

(** [for x in xs: acc.append(f(x))], the loop shape of lines 68-88 and
    78-86: the list built so far is threaded through the loop. *)
Fixpoint for_append {A B} (f : A -> res B) (acc : list B) (xs : list A)
  : res (list B) :=
  match xs with
  | [] => Ok acc
  | x :: xs' => let? y := f x in for_append f (acc ++ [y]) xs'
  end.

(** ** Python truthiness and iteration of optional attributes *)

(** [if s:] / [not s] on an [Optional[str]]: [None] and [""] are false. *)
Definition py_truthy_str (o : option string) : bool :=
  match o with
  | None => false
  | Some s => negb (String.eqb s "")
  end.

(** [if xs:] on an [Optional[list]]: [None] and [[]] are false. *)
Definition py_truthy_list {A} (o : option (list A)) : bool :=
  match o with
  | Some (_ :: _) => true
  | _ => false
  end.

(** [for x in o:]: iterating [None] raises
    [TypeError: 'NoneType' object is not iterable]. *)
Definition py_iter {A} (o : option (list A)) : res (list A) :=
  match o with
  | Some xs => Ok xs
  | None => Err TypeError
  end.

(** ** Python values: what the output dict is made of *)

(** A Python [float], by its [repr] (["800.0"], ["0.5"], ["1e-05"]). *)
Record pyfloat := mk_float { float_repr : string }.

(** A dict is an association list: Python dicts keep insertion order,
    and [json.dump] writes the keys in that order. *)
Inductive pyval :=
  | PNone
  | PInt (z : Z)
  | PFloat (f : pyfloat)
  | PStr (s : string)
  | PList (l : list pyval)
  | PDict (kvs : list (string * pyval)).

(** An attribute that may be [None], put into the dict as it is. *)
Definition py_opt {A} (f : A -> pyval) (o : option A) : pyval :=
  match o with
  | Some a => f a
  | None => PNone
  end.

(** [d[k]] on a dict value (first binding), [l[i]] on a list value. *)
Definition py_getitem (k : string) (v : pyval) : option pyval :=
  match v with
  | PDict kvs => snd <$> List.find (fun kv => String.eqb (fst kv) k) kvs
  | _ => None
  end.

Definition py_index (i : nat) (v : pyval) : option pyval :=
  match v with
  | PList l => l !! i
  | _ => None
  end.

Definition py_keys (v : pyval) : list string :=
  match v with
  | PDict kvs => map fst kvs
  | _ => []
  end.

(** ** A state-and-exception monad for the script *)

(** A statement runs on a state [S] and returns a value or raises; the
    effects done before an exception stay in the state, as in Python. *)
Definition stexc (S A : Type) := S -> res A * S.

Section StExc.
Context {S : Type}.

Definition st_ret {A} (a : A) : stexc S A := fun s => (Ok a, s).

Definition st_raise {A} (e : pyexc) : stexc S A := fun s => (Err e, s).

Definition st_bind {A B} (c : stexc S A) (k : A -> stexc S B) : stexc S B :=
  fun s => match c s with
           | (Ok a, s') => k a s'
           | (Err e, s') => (Err e, s')
           end.

Definition st_get : stexc S S := fun s => (Ok s, s).

Definition st_modify (f : S -> S) : stexc S unit := fun s => (Ok tt, f s).

Definition st_lift {A} (r : res A) : stexc S A := fun s => (r, s).

(** [try: body finally: fin]: [fin] runs on both paths, and the
    exception of [body] (if any) is raised again after it. *)
Definition st_finally {A} (body : stexc S A) (fin : stexc S unit) : stexc S A :=
  fun s => match body s with
           | (r, s') => match fin s' with
                        | (Ok _, s'') => (r, s'')
                        | (Err e, s'') => (Err e, s'')
                        end
           end.
End StExc.

Notation "'let!' x ':=' c 'in' k" := (st_bind c (fun x => k))
  (at level 10, x name, c at level 100, k at level 200) : py_scope.
Notation "c ';;!' k" := (st_bind c (fun _ => k))
  (at level 100, right associativity) : py_scope.

(** [for x in l: f(x)]. *)
Fixpoint st_for_each {S A} (f : A -> stexc S unit) (l : list A) : stexc S unit :=
  match l with
  | [] => st_ret tt
  | x :: l' => f x ;;! st_for_each f l'
  end.

(** ** Automation *)

Create HintDb pyrt discriminated.
Create Rewrite HintDb pyrt_rw.

Lemma res_bind_Ok {A B} (a : A) (k : A -> res B) : res_bind (Ok a) k = k a.
Proof. reflexivity. Qed.

Lemma res_bind_Err {A B} (e : pyexc) (k : A -> res B) : res_bind (Err e) k = Err e.
Proof. reflexivity. Qed.

Lemma res_bind_Ok_inv {A B} (c : res A) (k : A -> res B) (b : B) :
  res_bind c k = Ok b -> exists a, c = Ok a /\ k a = Ok b.
Proof. destruct c; simpl; [eauto | discriminate]. Qed.

#[export] Hint Rewrite @res_bind_Ok @res_bind_Err : pyrt_rw.

(** Take apart every [res_bind c k = Ok _] hypothesis. *)
Ltac inv_bind :=
  repeat match goal with
  | H : res_bind ?c ?k = Ok ?b |- _ =>
      let a := fresh "a" in let Ha := fresh "Ha" in let Hk := fresh "Hk" in
      destruct (res_bind_Ok_inv c k b H) as (a & Ha & Hk); clear H; cbv beta in Hk
  end.

(** ** Shared lemmas on [mapR] and [for_append] *)

Section MapR.
Context {A B : Type} (f : A -> res B).

Lemma mapR_Ok_iff (xs : list A) (ys : list B) :
  mapR f xs = Ok ys <-> Forall2 (fun x y => f x = Ok y) xs ys.
Proof.
  revert ys; induction xs as [|x xs IH]; intros ys; simpl.
  - split; [intros H; injection H as <-; constructor
           | intros H; inversion H; reflexivity].
  - split.
    + intros H. inv_bind. injection Hk0 as <-. constructor; [done | by apply IH].
    + intros H. inversion H as [|? y ? ys' Hf Hrest]; subst.
      rewrite Hf. simpl. by rewrite (proj2 (IH ys') Hrest).
Qed.

Lemma mapR_length (xs : list A) (ys : list B) :
  mapR f xs = Ok ys -> length ys = length xs.
Proof. intros H%mapR_Ok_iff. symmetry. by eapply Forall2_length. Qed.

(** When [f] succeeds on every element, [mapR f] is [map]. *)
Lemma mapR_map (g : A -> B) (xs : list A) :
  (forall x, In x xs -> f x = Ok (g x)) -> mapR f xs = Ok (map g xs).
Proof.
  induction xs as [|x xs IH]; intros Hg; simpl; [done |].
  rewrite (Hg x (or_introl eq_refl)). simpl.
  rewrite IH; [done | intros y Hy; apply Hg; by right].
Qed.

Lemma mapR_Err_app (pre rest : list A) (e : pyexc) :
  Forall (fun a => is_ok (f a) = true) pre ->
  mapR f rest = Err e -> mapR f (pre ++ rest) = Err e.
Proof.
  induction 1 as [|p pre Hp _ IH]; intros Hr; simpl; [done |].
  destruct (f p); [| discriminate]. simpl. by rewrite IH.
Qed.

(** [mapR] raises the exception of the first element that raises. *)
Lemma mapR_Err_iff (xs : list A) (e : pyexc) :
  mapR f xs = Err e <->
  exists pre x post, xs = pre ++ x :: post /\
    Forall (fun a => is_ok (f a) = true) pre /\ f x = Err e.
Proof.
  split.
  - induction xs as [|x xs IH]; simpl; [discriminate |].
    destruct (f x) as [y|e'] eqn:Hfx; simpl.
    + destruct (mapR f xs) eqn:Hm; simpl; [discriminate |].
      intros [= ->]. destruct IH as (pre & x' & post & -> & Hpre & Hx'); [done |].
      exists (x :: pre), x', post. split_and!; [done | | done].
      constructor; [by rewrite Hfx | done].
    + intros [= ->]. exists [], x, xs. auto.
  - intros (pre & x & post & -> & Hpre & Hx).
    apply mapR_Err_app; [done |]. simpl. by rewrite Hx.
Qed.

(** The append loop is the map, after what was already accumulated. *)
Lemma for_append_mapR (acc : list B) (xs : list A) :
  for_append f acc xs = (let? ys := mapR f xs in Ok (acc ++ ys)).
Proof.
  revert acc; induction xs as [|x xs IH]; intros acc; simpl.
  - by rewrite app_nil_r.
  - destruct (f x) as [y|e]; simpl; [| done].
    rewrite IH. destruct (mapR f xs); simpl; [| done].
    by rewrite <- app_assoc.
Qed.
(** A property of every input that [f] carries to its output carries
    over to the outputs of [mapR f]. *)
Lemma mapR_forallb (P : A -> bool) (Q : B -> bool) (xs : list A) (ys : list B) :
  (forall x y, f x = Ok y -> P x = true -> Q y = true) ->
  mapR f xs = Ok ys -> forallb P xs = true -> forallb Q ys = true.
Proof.
  intros HPQ Hm%mapR_Ok_iff. induction Hm as [|x y xs ys Hxy _ IH]; [done |].
  cbn [forallb]. intros [Hx Hxs]%andb_prop. by rewrite (HPQ x y Hxy Hx), IH.
Qed.

End MapR.

Lemma py_getitem_cons k v kvs :
  py_getitem k (PDict ((k, v) :: kvs)) = Some v.
Proof. simpl. by rewrite String.eqb_refl. Qed.

#[export] Hint Resolve mapR_length : pyrt.

(** ** Shared lemmas on strings *)

Lemma str_length_app (a b : string) :
  String.length (a ++ b)%string = String.length a + String.length b.
Proof. induction a; simpl; auto. Qed.

Lemma str_app_assoc (a b c : string) : ((a ++ b) ++ c = a ++ (b ++ c))%string.
Proof. induction a; simpl; [done | by rewrite IHa]. Qed.

Lemma str_app_nil_r (a : string) : (a ++ "")%string = a.
Proof. induction a; simpl; [done | by rewrite IHa]. Qed.

Lemma ascii_compare_refl (c : Ascii.ascii) : Ascii.compare c c = Eq.
Proof. apply N.compare_refl. Qed.

Lemma str_compare_refl (s : string) : String.compare s s = Eq.
Proof. induction s; simpl; [done | by rewrite ascii_compare_refl]. Qed.

(** Strings with a common prefix compare as their suffixes. *)
Lemma str_compare_app_l (p s1 s2 : string) :
  String.compare (p ++ s1) (p ++ s2) = String.compare s1 s2.
Proof. induction p; simpl; [done | by rewrite ascii_compare_refl]. Qed.

Lemma str_compare_eq (s1 s2 : string) : String.compare s1 s2 = Eq <-> s1 = s2.
Proof.
  split; [apply String.compare_eq_iff | intros ->; apply str_compare_refl].
Qed.

#[export] Hint Rewrite str_length_app str_app_assoc str_app_nil_r
  str_compare_app_l str_compare_refl : pyrt_rw.

(** ** Running [stexc] programs step by step *)

Section StExcRun.
Context {S A B : Type}.

Lemma st_bind_Ok (c : stexc S A) (k : A -> stexc S B) (s s' : S) (a : A) :
  c s = (Ok a, s') -> st_bind c k s = k a s'.
Proof. intros H. unfold st_bind. by rewrite H. Qed.

Lemma st_bind_Err (c : stexc S A) (k : A -> stexc S B) (s s' : S) (e : pyexc) :
  c s = (Err e, s') -> st_bind c k s = (Err e, s').
Proof. intros H. unfold st_bind. by rewrite H. Qed.

Lemma st_finally_run (body : stexc S A) (fin : stexc S unit) (s s' s'' : S) (r : res A) :
  body s = (r, s') -> fin s' = (Ok tt, s'') -> st_finally body fin s = (r, s'').
Proof. intros H1 H2. unfold st_finally. by rewrite H1, H2. Qed.
(** A loop whose body always returns runs its steps in order. *)
Lemma st_for_each_run (f : A -> stexc S unit) (step : A -> S -> S) (l : list A) (s : S) :
  (forall x s, f x s = (Ok tt, step x s)) ->
  st_for_each f l s = (Ok tt, fold_left (fun s x => step x s) l s).
Proof.
  intros Hf. revert s. induction l as [|x l IH]; intros s; [done |].
  cbn [st_for_each fold_left]. unfold st_bind. by rewrite Hf.
Qed.
End StExcRun.

(** ** A Hoare logic for [stexc] programs *)

(** [triple P c Q E]: from a state satisfying [P], [c] returns [a] in a
    state satisfying [Q a], or raises [e] in a state satisfying [E e]. *)
Section Hoare.
Context {S : Type}.

Definition triple {A} (P : S -> Prop) (c : stexc S A)
    (Q : A -> S -> Prop) (E : pyexc -> S -> Prop) : Prop :=
  forall s, P s -> match c s with
                   | (Ok a, s') => Q a s'
                   | (Err e, s') => E e s'
                   end.

Lemma triple_ret {A} (a : A) P Q E :
  (forall s, P s -> Q a s) -> triple P (st_ret a) Q E.
Proof. intros H s Hs. by apply H. Qed.

Lemma triple_raise {A} (e : pyexc) P (Q : A -> S -> Prop) E :
  (forall s, P s -> E e s) -> triple P (st_raise e) Q E.
Proof. intros H s Hs. by apply H. Qed.

Lemma triple_lift {A} (r : res A) P Q E :
  (forall s, P s -> match r with Ok a => Q a s | Err e => E e s end) ->
  triple P (st_lift r) Q E.
Proof. intros H s Hs. unfold st_lift. specialize (H s Hs). by destruct r. Qed.

Lemma triple_modify (f : S -> S) P Q E :
  (forall s, P s -> Q tt (f s)) -> triple P (st_modify f) Q E.
Proof. intros H s Hs. by apply H. Qed.

Lemma triple_bind {A B} (c : stexc S A) (k : A -> stexc S B) P Q R E :
  triple P c Q E -> (forall a, triple (Q a) (k a) R E) -> triple P (st_bind c k) R E.
Proof.
  intros Hc Hk s Hs. unfold st_bind. specialize (Hc s Hs).
  destruct (c s) as [[a|e] s']; [by apply Hk | done].
Qed.

Lemma triple_conseq {A} (c : stexc S A) P P' Q Q' E E' :
  triple P' c Q' E' -> (forall s, P s -> P' s) ->
  (forall a s, Q' a s -> Q a s) -> (forall e s, E' e s -> E e s) ->
  triple P c Q E.
Proof.
  intros Hc HP HQ HE s Hs. specialize (Hc s (HP s Hs)).
  destruct (c s) as [[a|e] s']; auto.
Qed.

(** [try: body finally: fin], when [fin] does not raise: [fin] runs
    after either outcome of [body]. *)
Lemma triple_finally {A} (body : stexc S A) (fin : stexc S unit) P Q R E F :
  triple P body Q E ->
  (forall a, triple (Q a) fin (fun _ => R a) (fun _ _ => False)) ->
  (forall e, triple (E e) fin (fun _ => F e) (fun _ _ => False)) ->
  triple P (st_finally body fin) R F.
Proof.
  intros Hb Hq He s Hs. unfold st_finally. specialize (Hb s Hs).
  destruct (body s) as [[a|e] s'].
  - specialize (Hq a s' Hb). by destruct (fin s') as [[]].
  - specialize (He e s' Hb). by destruct (fin s') as [[]].
Qed.

Lemma triple_if {A} (b : bool) (c1 c2 : stexc S A) P Q E :
  triple P c1 Q E -> triple P c2 Q E -> triple P (if b then c1 else c2) Q E.
Proof. by destruct b. Qed.
End Hoare.

Create HintDb hoare discriminated.
#[export] Hint Resolve triple_bind triple_if : hoare.
