(* ===== verification/Timestamp.v ===== *)
(** The log file name, lines 41-45 of [src/main.py]:
    [datetime.now().strftime("%Y%m%d_%H%M%S")] and
    [os.path.join("logs", f"analyze_result_{timestamp}.json")].
    This file holds [datetime] values, the fixed-width zero-padded
    decimal fields of [strftime], [posixpath.join], and an inverse
    parser for the stamp.  The theorems are the round trip, the length,
    the chronological order of the names and their collisions. *)

From Stdlib Require Import String Ascii ZArith.
From stdpp Require Import base option.
From S2P Require Import Prelude.

Local Open Scope Z_scope.
Local Open Scope string_scope.

(** ** [datetime] *)

Record datetime := mk_datetime {
  year : Z; month : Z; day : Z;
  hour : Z; minute : Z; second : Z; microsecond : Z
}.

Definition is_leap (y : Z) : bool :=
  (((y mod 4 =? 0) && negb (y mod 100 =? 0)) || (y mod 400 =? 0))%Z.

Definition days_in_month (y m : Z) : Z :=
  (if m =? 2 then (if is_leap y then 29 else 28)
   else if (m =? 4) || (m =? 6) || (m =? 9) || (m =? 11) then 30 else 31)%Z.

(** The range checks of [datetime]'s constructor ([MINYEAR] = 1,
    [MAXYEAR] = 9999, no leap second). *)
Definition valid_datetime (d : datetime) : bool :=
  ((1 <=? year d) && (year d <=? 9999) && (1 <=? month d) && (month d <=? 12) &&
  (1 <=? day d) && (day d <=? days_in_month (year d) (month d)) &&
  (0 <=? hour d) && (hour d <? 24) && (0 <=? minute d) && (minute d <? 60) &&
  (0 <=? second d) && (second d <? 60) &&
  (0 <=? microsecond d) && (microsecond d <? 1000000))%Z.

(** ** [strftime] fields *)

Definition digit_char (n : Z) : ascii := ascii_of_N (48 + Z.to_N n).

(** [n] written with [w] decimal digits, zero-padded on the left
    ([%Y] is [w = 4]; [%m %d %H %M %S] are [w = 2]). *)
Fixpoint zpad (w : nat) (n : Z) : string :=
  match w with
  | O => ""
  | S w' => zpad w' (n / 10) ++ String (digit_char (n mod 10)) ""
  end.

(** [strftime("%Y%m%d_%H%M%S")], line 44.  Microseconds are dropped. *)
Definition strftime_stamp (d : datetime) : string :=
  zpad 4 (year d) ++ zpad 2 (month d) ++ zpad 2 (day d) ++ "_" ++
  zpad 2 (hour d) ++ zpad 2 (minute d) ++ zpad 2 (second d).

(** [LOG_DIR], line 41. *)
Definition LOG_DIR : string := "logs".

(** [f"analyze_result_{timestamp}.json"], line 45. *)
Definition log_file_name (timestamp : string) : string :=
  "analyze_result_" ++ timestamp ++ ".json".

Definition ends_with_slash (a : string) : bool :=
  match String.get (String.length a - 1) a with
  | Some c => Ascii.eqb c "/"
  | None => false
  end.

(** [posixpath.join(a, b)] for two components: an absolute [b] wins;
    otherwise a ["/"] is inserted unless [a] is empty or ends with one. *)
Definition path_join (a b : string) : string :=
  if String.prefix "/" b then b
  else if String.eqb a "" || ends_with_slash a then a ++ b
  else a ++ "/" ++ b.

(** [LOG_FILE_PATH], lines 44-45, from the time [datetime.now()] read. *)
Definition log_file_path (now : datetime) : string :=
  path_join LOG_DIR (log_file_name (strftime_stamp now)).

(** ** Reading a stamp back *)

Definition digit_val (c : ascii) : option Z :=
  let k := N_of_ascii c in
  if (48 <=? k)%N && (k <=? 57)%N then Some (Z.of_N k - 48) else None.

Fixpoint parse_digits (acc : Z) (s : string) : option Z :=
  match s with
  | "" => Some acc
  | String c s' => d ← digit_val c; parse_digits (acc * 10 + d) s'
  end.

Fixpoint split_at (n : nat) (s : string) : option (string * string) :=
  match n, s with
  | O, _ => Some ("", s)
  | S n', String c s' => '(a, b) ← split_at n' s'; Some (String c a, b)
  | S _, "" => None
  end.

Definition take_num (w : nat) (s : string) : option (Z * string) :=
  '(a, b) ← split_at w s; n ← parse_digits 0 a; Some (n, b).

Definition take_char (c : ascii) (s : string) : option string :=
  match s with
  | String c' s' => if Ascii.eqb c c' then Some s' else None
  | "" => None
  end.

(** The fields [(Y, m, d, H, M, S)] of a stamp. *)
Definition parse_stamp (s : string) : option (Z * Z * Z * Z * Z * Z) :=
  '(y, s) ← take_num 4 s; '(mo, s) ← take_num 2 s; '(dd, s) ← take_num 2 s;
  s ← take_char "_" s;
  '(h, s) ← take_num 2 s; '(mi, s) ← take_num 2 s; '(se, s) ← take_num 2 s;
  if String.eqb s "" then Some (y, mo, dd, h, mi, se) else None.

(** Lexicographic order of the fields, to the second. *)
Definition cmp_then (c k : comparison) : comparison :=
  match c with Eq => k | _ => c end.

Definition dt_compare (d1 d2 : datetime) : comparison :=
  cmp_then (year d1 ?= year d2)%Z
  (cmp_then (month d1 ?= month d2)%Z
  (cmp_then (day d1 ?= day d2)%Z
  (cmp_then (hour d1 ?= hour d2)%Z
  (cmp_then (minute d1 ?= minute d2)%Z
  (second d1 ?= second d2)%Z)))).

(** ** Lemmas on digits and padding *)

Lemma digit_char_compare (a b : Z) :
  0 <= a < 10 -> 0 <= b < 10 ->
  Ascii.compare (digit_char a) (digit_char b) = (a ?= b)%Z.
Proof.
  intros Ha Hb. unfold Ascii.compare, digit_char.
  rewrite !N_ascii_embedding by lia.
  rewrite <- N2Z.inj_compare, !N2Z.inj_add, !Z2N.id by lia.
  apply Z.add_compare_mono_l.
Qed.

Lemma digit_val_char (a : Z) : 0 <= a < 10 -> digit_val (digit_char a) = Some a.
Proof.
  intros Ha. unfold digit_val, digit_char. rewrite N_ascii_embedding by lia.
  rewrite (proj2 (N.leb_le _ _)), (proj2 (N.leb_le _ _)) by lia. simpl.
  f_equal. lia.
Qed.

Lemma cmp_then_assoc (c1 c2 k : comparison) :
  cmp_then (cmp_then c1 c2) k = cmp_then c1 (cmp_then c2 k).
Proof. by destruct c1. Qed.

(** Comparing two numbers is comparing their leading digits, then the
    last digit. *)
Lemma Z_compare_div_mod (a b : Z) :
  0 <= a -> 0 <= b ->
  (a ?= b)%Z = cmp_then (a / 10 ?= b / 10)%Z (a mod 10 ?= b mod 10)%Z.
Proof.
  intros Ha Hb.
  pose proof (Z.div_mod a 10) as Da. pose proof (Z.div_mod b 10) as Db.
  pose proof (Z.mod_pos_bound a 10) as Ma. pose proof (Z.mod_pos_bound b 10) as Mb.
  destruct (Z.compare_spec (a / 10) (b / 10)); simpl.
  - destruct (Z.compare_spec (a mod 10) (b mod 10));
      [apply Z.compare_eq_iff | apply Z.compare_lt_iff | apply Z.compare_gt_iff]; lia.
  - apply Z.compare_lt_iff. lia.
  - apply Z.compare_gt_iff. lia.
Qed.

Lemma zpad_length (w : nat) (n : Z) : String.length (zpad w n) = w.
Proof.
  revert n. induction w as [|w IH]; intros n; simpl; [done |].
  rewrite str_length_app, IH. simpl. lia.
Qed.

Lemma pow10_succ (w : nat) : 10 ^ Z.of_nat (S w) = 10 * 10 ^ Z.of_nat w.
Proof. rewrite Nat2Z.inj_succ, Z.pow_succ_r; lia. Qed.

Lemma div10_bound (w : nat) (a : Z) :
  0 <= a < 10 ^ Z.of_nat (S w) -> 0 <= a / 10 < 10 ^ Z.of_nat w.
Proof.
  rewrite pow10_succ. intros Ha. split; [apply Z.div_pos; lia |].
  apply Z.div_lt_upper_bound; lia.
Qed.

(** Fixed-width fields compare as the numbers they write. *)
Lemma zpad_compare (w : nat) (a b : Z) (s1 s2 : string) :
  0 <= a < 10 ^ Z.of_nat w -> 0 <= b < 10 ^ Z.of_nat w ->
  String.compare (zpad w a ++ s1) (zpad w b ++ s2) =
  cmp_then (a ?= b)%Z (String.compare s1 s2).
Proof.
  revert a b s1 s2. induction w as [|w IH]; intros a b s1 s2 Ha Hb.
  - simpl in *. replace a with 0 by lia. replace b with 0 by lia. done.
  - simpl. rewrite !str_app_assoc, IH by (by apply div10_bound). simpl.
    rewrite digit_char_compare by (apply Z.mod_pos_bound; lia).
    rewrite (Z_compare_div_mod a b), cmp_then_assoc by lia.
    by destruct (a mod 10 ?= b mod 10)%Z.
Qed.

Lemma parse_digits_app (acc : Z) (s t : string) :
  parse_digits acc (s ++ t) = (k ← parse_digits acc s; parse_digits k t).
Proof.
  revert acc. induction s as [|c s IH]; intros acc; simpl; [done |].
  destruct (digit_val c); simpl; [apply IH | done].
Qed.

Lemma parse_digits_zpad (w : nat) (acc n : Z) :
  0 <= n < 10 ^ Z.of_nat w ->
  parse_digits acc (zpad w n) = Some (acc * 10 ^ Z.of_nat w + n).
Proof.
  revert acc n. induction w as [|w IH]; intros acc n Hn.
  - simpl in *. f_equal. lia.
  - simpl. rewrite parse_digits_app, IH by (by apply div10_bound). simpl.
    rewrite digit_val_char by (apply Z.mod_pos_bound; lia). simpl. f_equal.
    rewrite pow10_succ. pose proof (Z.div_mod n 10). lia.
Qed.

Lemma split_at_app (a b : string) :
  split_at (String.length a) (a ++ b) = Some (a, b).
Proof. induction a as [|c a IH]; simpl; [by destruct b | by rewrite IH]. Qed.

Lemma take_num_zpad (w : nat) (n : Z) (s : string) :
  0 <= n < 10 ^ Z.of_nat w -> take_num w (zpad w n ++ s) = Some (n, s).
Proof.
  intros Hn. unfold take_num.
  rewrite <- (zpad_length w n) at 1. rewrite split_at_app. simpl.
  rewrite parse_digits_zpad by done. simpl. by rewrite Z.mul_0_l, Z.add_0_l.
Qed.

Lemma days_in_month_le (y m : Z) : days_in_month y m <= 31.
Proof.
  unfold days_in_month. destruct (m =? 2)%Z; [destruct (is_leap y) |]; [lia | lia |].
  destruct (_ || _); lia.
Qed.

(** The fields of a valid [datetime] fit their [strftime] widths. *)
Lemma valid_widths (d : datetime) :
  valid_datetime d = true ->
  0 <= year d < 10 ^ Z.of_nat 4 /\ 0 <= month d < 10 ^ Z.of_nat 2 /\
  0 <= day d < 10 ^ Z.of_nat 2 /\ 0 <= hour d < 10 ^ Z.of_nat 2 /\
  0 <= minute d < 10 ^ Z.of_nat 2 /\ 0 <= second d < 10 ^ Z.of_nat 2.
Proof.
  unfold valid_datetime. intros H.
  repeat rewrite Bool.andb_true_iff in H.
  rewrite ?Z.leb_le, ?Z.ltb_lt in H.
  pose proof (days_in_month_le (year d) (month d)). simpl. lia.
Qed.

Lemma cmp_then_Eq (c k : comparison) : cmp_then c k = Eq <-> c = Eq /\ k = Eq.
Proof. destruct c; simpl; intuition congruence. Qed.

Lemma cmp_then_Eq_r (c : comparison) : cmp_then c Eq = c.
Proof. by destruct c. Qed.

Lemma dt_compare_Eq (d1 d2 : datetime) :
  dt_compare d1 d2 = Eq <->
  (year d1, month d1, day d1, hour d1, minute d1, second d1) =
  (year d2, month d2, day d2, hour d2, minute d2, second d2).
Proof.
  unfold dt_compare. rewrite !cmp_then_Eq, !Z.compare_eq_iff.
  split; [intros (-> & -> & -> & -> & -> & ->); done |].
  intros [= -> -> -> -> -> ->]. done.
Qed.

(** Stamps compare as the times they write, to the second. *)
Lemma stamp_compare_app (d1 d2 : datetime) (s1 s2 : string) :
  valid_datetime d1 = true -> valid_datetime d2 = true ->
  String.compare (strftime_stamp d1 ++ s1) (strftime_stamp d2 ++ s2) =
  cmp_then (dt_compare d1 d2) (String.compare s1 s2).
Proof.
  intros (? & ? & ? & ? & ? & ?)%valid_widths (? & ? & ? & ? & ? & ?)%valid_widths.
  unfold strftime_stamp, dt_compare. rewrite !str_app_assoc.
  rewrite zpad_compare, zpad_compare, zpad_compare, str_compare_app_l,
    zpad_compare, zpad_compare, zpad_compare by done.
  by rewrite !cmp_then_assoc.
Qed.

(** [os.path.join] adds exactly one ["/"] here: the file name is
    relative and ["logs"] does not end with a slash. *)
Lemma log_file_path_eq (d : datetime) :
  log_file_path d = "logs/analyze_result_" ++ strftime_stamp d ++ ".json".
Proof. reflexivity. Qed.

(** ** Properties of the log file name *)

(** C15 (roundtrip).  The stamp of a valid [datetime] determines its
    date and time to the second: parsing it back gives year, month, day,
    hour, minute and second. *)
Theorem strftime_stamp_roundtrip (d : datetime) :
  valid_datetime d = true ->
  parse_stamp (strftime_stamp d) =
    Some (year d, month d, day d, hour d, minute d, second d).
Proof.
  intros (? & ? & ? & ? & ? & ?)%valid_widths.
  unfold parse_stamp, strftime_stamp.
  rewrite take_num_zpad by done. cbn -[zpad take_num].
  rewrite take_num_zpad by done. cbn -[zpad take_num].
  rewrite take_num_zpad by done. cbn -[zpad take_num].
  rewrite take_num_zpad by done. cbn -[zpad take_num].
  rewrite take_num_zpad by done. cbn -[zpad take_num].
  rewrite <- (str_app_nil_r (zpad 2 (second d))).
  rewrite take_num_zpad by done. done.
Qed.

(** C16 (bounds).  The log path is ["logs/analyze_result_"], the stamp
    and [".json"], and it is always 40 characters long: each [strftime]
    field has its fixed width. *)
Theorem log_file_path_shape (d : datetime) :
  log_file_path d = "logs/analyze_result_" ++ strftime_stamp d ++ ".json" /\
  String.length (log_file_path d) = 40%nat.
Proof.
  rewrite log_file_path_eq. split; [done |].
  unfold strftime_stamp. rewrite !str_length_app, !zpad_length. done.
Qed.

(** C17 (functional).  Log paths sort in chronological order: comparing
    two paths as strings gives the order of the two times, to the
    second. *)
Theorem log_file_path_order (d1 d2 : datetime) :
  valid_datetime d1 = true -> valid_datetime d2 = true ->
  String.compare (log_file_path d1) (log_file_path d2) = dt_compare d1 d2.
Proof.
  intros H1 H2. rewrite !log_file_path_eq, str_compare_app_l.
  by rewrite stamp_compare_app, str_compare_refl, cmp_then_Eq_r.
Qed.

(** C18 (safety, spec gap).  Two runs get the same log path exactly when
    their clocks agree to the second.  Two runs within one second, which
    differ only in microseconds, write the same file, and the second
    truncates the first. *)
Theorem log_file_path_collision (d1 d2 : datetime) :
  valid_datetime d1 = true -> valid_datetime d2 = true ->
  log_file_path d1 = log_file_path d2 <->
  (year d1, month d1, day d1, hour d1, minute d1, second d1) =
  (year d2, month d2, day d2, hour d2, minute d2, second d2).
Proof.
  intros H1 H2. rewrite <- dt_compare_Eq, <- str_compare_eq, !log_file_path_eq.
  rewrite str_compare_app_l, stamp_compare_app by done.
  by rewrite str_compare_refl, cmp_then_Eq_r.
Qed.

(** ** Concrete stamps *)

Definition t_run1 : datetime := mk_datetime 2024 2 29 9 5 7 120.
Definition t_run2 : datetime := mk_datetime 2024 2 29 9 5 7 999999.
Definition t_later : datetime := mk_datetime 2024 3 1 0 0 0 0.

Lemma strftime_stamp_roundtrip_witness :
  valid_datetime t_run1 = true /\
  parse_stamp (strftime_stamp t_run1) = Some (2024, 2, 29, 9, 5, 7).
Proof. split; [reflexivity | apply (strftime_stamp_roundtrip t_run1); reflexivity]. Defined.

Lemma log_file_path_order_witness :
  valid_datetime t_run1 = true /\ valid_datetime t_later = true /\
  String.compare (log_file_path t_run1) (log_file_path t_later) = dt_compare t_run1 t_later.
Proof. split_and!; [reflexivity | reflexivity | apply log_file_path_order; reflexivity]. Defined.

Lemma log_file_path_collision_witness :
  valid_datetime t_run1 = true /\ valid_datetime t_run2 = true /\
  log_file_path t_run1 = log_file_path t_run2.
Proof.
  split_and!; [reflexivity | reflexivity |].
  apply (log_file_path_collision t_run1 t_run2); reflexivity.
Defined.
