(* ===== verification/Analysis.v ===== *)
(** The analysis result the script reads (lines 57-88 of [src/main.py]).
    The SDK objects ([AnalyzeResult], [DocumentPage], [DocumentLine])
    are records with one field per attribute the script reads.  Each
    field is an [option], because the SDK's models are dict-backed: an
    attribute that the service did not send reads as [None].  The
    [Spec] module holds the typed data model of the spec (section 3),
    in which every field is present, and the abstraction from the SDK
    shape to it. *)

From Stdlib Require Import String ZArith.
From stdpp Require Import base list.
From S2P Require Import Prelude.

Local Open Scope py_scope.

(** ** The SDK objects *)

(** An element of [line.polygon].  [PolyPoint] is an object with [x] and
    [y] attributes, the [Point] the spec and [azure-ai-formrecognizer]
    use.  [PolyFloat] is a bare coordinate: [azure-ai-documentintelligence]
    1.x declares [DocumentLine.polygon] as [List[float]], that is
    [[x1, y1, x2, y2, ...]]. *)
Inductive poly_elem :=
  | PolyPoint (x y : pyfloat)
  | PolyFloat (f : pyfloat).

(** [line.content], [line.polygon]. *)
Record DocumentLine := {
  line_content : option string;
  line_polygon : option (list poly_elem)
}.

(** [page.page_number], [page.width], [page.height], [page.unit],
    [page.lines].  The unit is the SDK's [LengthUnit], a [str] enum, so
    it is its string value (["pixel"], ["inch"]). *)
Record DocumentPage := {
  page_number : option Z;
  page_width : option pyfloat;
  page_height : option pyfloat;
  page_unit : option string;
  page_lines : option (list DocumentLine)
}.

(** [result.content], [result.pages]. *)
Record AnalyzeResult := {
  result_content : option string;
  result_pages : option (list DocumentPage)
}.

(** ** The spec's data model *)

Module Spec.
Record Point := { x : pyfloat; y : pyfloat }.
Record Line := { content : string; bounding_polygon : list Point }.
Record Page := {
  page_number : Z; width : pyfloat; height : pyfloat; unit : string; lines : list Line
}.
Record Result := { rcontent : string; pages : list Page }.

(** The abstraction from an SDK result to the spec's model.  It is
    defined only when every field the spec lists is present and every
    polygon element is a point.  An absent line collection is read as
    an empty one, as spec section 4.1 says. *)
Definition point_of (p : poly_elem) : option Point :=
  match p with
  | PolyPoint x y => Some {| x := x; y := y |}
  | PolyFloat _ => None
  end.

Definition line_of (l : DocumentLine) : option Line :=
  c ← line_content l;
  poly ← line_polygon l;
  pts ← mapM point_of poly;
  Some {| content := c; bounding_polygon := pts |}.

Definition page_of (pg : DocumentPage) : option Page :=
  n ← Analysis.page_number pg;
  w ← page_width pg;
  h ← page_height pg;
  u ← page_unit pg;
  ls ← mapM line_of (default [] (page_lines pg));
  Some {| page_number := n; width := w; height := h; unit := u; lines := ls |}.

Definition abstract (r : AnalyzeResult) : option Result :=
  c ← result_content r;
  pgs ← result_pages r;
  ps ← mapM page_of pgs;
  Some {| rcontent := c; pages := ps |}.

(** The concrete form of a spec result: every attribute present. *)
Definition embed_line (l : Line) : DocumentLine :=
  {| line_content := Some (content l);
     line_polygon := Some (map (fun p => PolyPoint (x p) (y p)) (bounding_polygon l)) |}.

Definition embed_page (p : Page) : DocumentPage :=
  {| Analysis.page_number := Some (page_number p);
     page_width := Some (width p); page_height := Some (height p);
     page_unit := Some (unit p);
     page_lines := Some (map embed_line (lines p)) |}.

Definition embed (r : Result) : AnalyzeResult :=
  {| result_content := Some (rcontent r);
     result_pages := Some (map embed_page (pages r)) |}.

Lemma mapM_point_of_embed (ps : list Point) :
  mapM point_of (map (fun p => PolyPoint (x p) (y p)) ps) = Some ps.
Proof. induction ps as [|[] ps IH]; simpl; [done |]. by rewrite IH. Qed.

Lemma line_of_embed (l : Line) : line_of (embed_line l) = Some l.
Proof. destruct l. unfold line_of; simpl. by rewrite mapM_point_of_embed. Qed.

Lemma mapM_embed {A B} (f : B -> A) (g : A -> option B) (xs : list B) :
  (forall a, g (f a) = Some a) -> mapM g (map f xs) = Some xs.
Proof. intros H. induction xs as [|a xs IH]; simpl; [done |]. by rewrite H, IH. Qed.

Lemma page_of_embed (p : Page) : page_of (embed_page p) = Some p.
Proof.
  destruct p. unfold page_of; simpl.
  rewrite (mapM_embed _ _ _ line_of_embed). done.
Qed.

(** Embedding and abstraction are a round trip. *)
Lemma abstract_embed (r : Result) : abstract (embed r) = Some r.
Proof.
  destruct r. unfold abstract; simpl.
  rewrite (mapM_embed _ _ _ page_of_embed). done.
Qed.
End Spec.
