(* ===== verification/Transform.v ===== *)
(** The result transformation, lines 63-88 of [src/main.py]: from the
    analysis result to the dict [result_dict] that is dumped to the log.
    Each definition translates one nesting level of the code: the
    [{"x": p.x, "y": p.y}] comprehension, the line dict, the page loop
    body and the outer loop.  The theorems give the behaviour of each
    branch, the exact condition under which the transform raises and
    which exception it raises, and a refinement of the spec's typed
    transform (module [Spec] of [Analysis]). *)

From Stdlib Require Import String ZArith.
From stdpp Require Import base list.
From S2P Require Import Prelude Analysis.

Local Open Scope py_scope.
Local Open Scope string_scope.

(** ** The code *)

(** Line 83: [{"x": p.x, "y": p.y}].  A bare float has no attribute [x]. *)
Definition point_data (p : poly_elem) : res pyval :=
  match p with
  | PolyPoint x y => Ok (PDict [("x", PFloat x); ("y", PFloat y)])
  | PolyFloat _ => Err AttributeError
  end.

(** Lines 80-85: the dict appended for one line.  [line.content] is read
    first, then the comprehension iterates [line.polygon]. *)
Definition line_data (l : DocumentLine) : res pyval :=
  let content := py_opt PStr (line_content l) in
  let? pts := py_iter (line_polygon l) in
  let? poly := mapR point_data pts in
  Ok (PDict [("content", content); ("bounding_polygon", PList poly)]).

(** Lines 69-86: [page_data] with its ["lines"] list, filled by the
    loop of lines 78-86 when [page.lines] is truthy.  The list is
    appended to in place inside the dict; the dict is only read after
    the loop, so building it with the final list is the same value. *)
Definition page_data (pg : DocumentPage) : res pyval :=
  let? lines :=
    if py_truthy_list (page_lines pg)
    then let? ls := py_iter (page_lines pg) in for_append line_data [] ls
    else Ok [] in
  Ok (PDict [("page_number", py_opt PInt (page_number pg));
             ("width", py_opt PFloat (page_width pg));
             ("height", py_opt PFloat (page_height pg));
             ("unit", py_opt PStr (page_unit pg));
             ("lines", PList lines)]).

(** Lines 63-88: [result_dict], with the page loop of lines 68-88. *)
Definition result_dict (r : AnalyzeResult) : res pyval :=
  let content := py_opt PStr (result_content r) in
  let? pages := py_iter (result_pages r) in
  let? datas := for_append page_data [] pages in
  Ok (PDict [("content", content); ("pages", PList datas)]).

(** ** When the code succeeds: a decidable characterisation *)

Definition point_ok (p : poly_elem) : bool :=
  match p with PolyPoint _ _ => true | PolyFloat _ => false end.

Definition line_ok (l : DocumentLine) : bool :=
  match line_polygon l with
  | Some pts => forallb point_ok pts
  | None => false
  end.

Definition page_ok (pg : DocumentPage) : bool :=
  match page_lines pg with
  | Some ls => forallb line_ok ls
  | None => true
  end.

Definition shape_ok (r : AnalyzeResult) : bool :=
  match result_pages r with
  | Some pgs => forallb page_ok pgs
  | None => false
  end.

(** ** The spec's transform on the typed model *)

Module SpecLog.
Import Spec.

Definition point_log (p : Point) : pyval :=
  PDict [("x", PFloat (x p)); ("y", PFloat (y p))].

Definition line_log (l : Line) : pyval :=
  PDict [("content", PStr (content l));
         ("bounding_polygon", PList (map point_log (bounding_polygon l)))].

Definition page_log (p : Page) : pyval :=
  PDict [("page_number", PInt (page_number p)); ("width", PFloat (width p));
         ("height", PFloat (height p)); ("unit", PStr (unit p));
         ("lines", PList (map line_log (lines p)))].

Definition result_log (r : Result) : pyval :=
  PDict [("content", PStr (rcontent r)); ("pages", PList (map page_log (pages r)))].
End SpecLog.

(** ** Lemmas *)

Lemma result_dict_unfold (r : AnalyzeResult) :
  result_dict r =
    (let? pages := py_iter (result_pages r) in
     let? datas := mapR page_data pages in
     Ok (PDict [("content", py_opt PStr (result_content r)); ("pages", PList datas)])).
Proof.
  unfold result_dict. destruct (py_iter _); simpl; [| done].
  rewrite for_append_mapR. by destruct (mapR _ _).
Qed.

Lemma page_data_unfold (pg : DocumentPage) :
  page_data pg =
    (let? lines := mapR line_data (default [] (page_lines pg)) in
     Ok (PDict [("page_number", py_opt PInt (page_number pg));
                ("width", py_opt PFloat (page_width pg));
                ("height", py_opt PFloat (page_height pg));
                ("unit", py_opt PStr (page_unit pg));
                ("lines", PList lines)])).
Proof.
  unfold page_data. destruct (page_lines pg) as [[|l ls]|]; [done | | done].
  cbn -[for_append mapR]. rewrite for_append_mapR. by destruct (mapR _ _).
Qed.

Lemma point_data_ok (p : poly_elem) : is_ok (point_data p) = point_ok p.
Proof. by destruct p. Qed.

(** Whether [mapR f] succeeds is decided element by element. *)
Lemma is_ok_mapR {A B} (f : A -> res B) (g : A -> bool) (xs : list A) :
  (forall x, is_ok (f x) = g x) -> is_ok (mapR f xs) = forallb g xs.
Proof.
  intros Hfg. induction xs as [|x xs IH]; simpl; [done |].
  rewrite <- Hfg. destruct (f x); simpl; [| done].
  rewrite <- IH. by destruct (mapR f xs).
Qed.

Lemma is_ok_bind {A B} (c : res A) (k : A -> res B) :
  is_ok (res_bind c k) = match c with Ok a => is_ok (k a) | Err _ => false end.
Proof. by destruct c. Qed.

Lemma line_data_ok (l : DocumentLine) : is_ok (line_data l) = line_ok l.
Proof.
  unfold line_data, line_ok. destruct (line_polygon l) as [pts|]; simpl; [| done].
  rewrite is_ok_bind, <- (is_ok_mapR _ _ _ point_data_ok).
  by destruct (mapR _ _).
Qed.

Lemma page_data_ok (pg : DocumentPage) : is_ok (page_data pg) = page_ok pg.
Proof.
  rewrite page_data_unfold. unfold page_ok.
  rewrite is_ok_bind.
  destruct (page_lines pg) as [ls|]; simpl; [| done].
  rewrite <- (is_ok_mapR _ _ _ line_data_ok). by destruct (mapR _ _).
Qed.

Lemma point_data_spec (p : poly_elem) (q : Spec.Point) :
  Spec.point_of p = Some q -> point_data p = Ok (SpecLog.point_log q).
Proof. destruct p; simpl; [intros [= <-] | discriminate]. done. Qed.

(** [mapR] refines [mapM] when each step does. *)
Lemma mapR_mapM {A B C} (f : A -> res C) (g : A -> option B) (h : B -> C) (xs : list A) (ys : list B) :
  (forall x y, g x = Some y -> f x = Ok (h y)) ->
  mapM g xs = Some ys -> mapR f xs = Ok (map h ys).
Proof.
  intros Hfg. revert ys. induction xs as [|x xs IH]; intros ys; simpl.
  - by intros [= <-].
  - destruct (g x) as [y|] eqn:Hg; simpl; [| discriminate].
    destruct (mapM g xs) as [ys'|] eqn:Hm; simpl; [| discriminate].
    intros [= <-]. rewrite (Hfg _ _ Hg). simpl. by rewrite (IH ys').
Qed.

Lemma line_data_spec (l : DocumentLine) (sl : Spec.Line) :
  Spec.line_of l = Some sl -> line_data l = Ok (SpecLog.line_log sl).
Proof.
  unfold Spec.line_of, line_data.
  destruct (line_content l) as [c|]; simpl; [| discriminate].
  destruct (line_polygon l) as [pts|]; simpl; [| discriminate].
  destruct (mapM Spec.point_of pts) as [sp|] eqn:Hm; simpl; [| discriminate].
  intros [= <-]. by rewrite (mapR_mapM _ _ _ _ _ point_data_spec Hm).
Qed.

Lemma page_data_spec (pg : DocumentPage) (sp : Spec.Page) :
  Spec.page_of pg = Some sp -> page_data pg = Ok (SpecLog.page_log sp).
Proof.
  rewrite page_data_unfold. unfold Spec.page_of.
  destruct (page_number pg), (page_width pg), (page_height pg), (page_unit pg);
    simpl; try discriminate.
  destruct (mapM Spec.line_of _) as [sls|] eqn:Hm; simpl; [| discriminate].
  intros [= <-]. by rewrite (mapR_mapM _ _ _ _ _ line_data_spec Hm).
Qed.

Lemma res_bind_Err_inv {A B} (c : res A) (k : A -> res B) (e : pyexc) :
  res_bind c k = Err e -> c = Err e \/ exists a, c = Ok a /\ k a = Err e.
Proof. destruct c; simpl; [eauto | intros [= ->]; auto]. Qed.

Lemma mapR_Err_elem {A B} (f : A -> res B) (xs : list A) (e : pyexc) :
  mapR f xs = Err e -> exists x, In x xs /\ f x = Err e.
Proof.
  intros (pre & x & post & -> & _ & Hx)%mapR_Err_iff.
  exists x. split; [apply in_or_app; simpl; auto | done].
Qed.

(** A polygon attribute is present (the comprehension can iterate it). *)
Definition line_has_polygon (l : DocumentLine) : bool :=
  match line_polygon l with Some _ => true | None => false end.

(** [result.pages] and every polygon the loops reach are present. *)
Definition polygons_present (r : AnalyzeResult) : bool :=
  match result_pages r with
  | Some pgs => forallb (fun pg => forallb line_has_polygon (default [] (page_lines pg))) pgs
  | None => false
  end.

Lemma line_data_Err (l : DocumentLine) (e : pyexc) :
  line_data l = Err e ->
  (line_polygon l = None /\ e = TypeError) \/ e = AttributeError.
Proof.
  unfold line_data. destruct (line_polygon l) as [pts|]; simpl; [| intros [= <-]; auto].
  destruct (mapR point_data pts) eqn:Hm; simpl; [discriminate | intros [= <-]].
  apply mapR_Err_elem in Hm as ([] & _ & Hp); simpl in Hp; [discriminate |].
  injection Hp as <-. auto.
Qed.

Lemma page_data_Err (pg : DocumentPage) (e : pyexc) :
  page_data pg = Err e ->
  (existsb (fun l => negb (line_has_polygon l)) (default [] (page_lines pg)) = true
   /\ e = TypeError) \/ e = AttributeError.
Proof.
  rewrite page_data_unfold.
  destruct (mapR line_data _) eqn:Hm; simpl; [discriminate | intros [= <-]].
  apply mapR_Err_elem in Hm as (l & Hin & Hl).
  destruct (line_data_Err l _ Hl) as [[Hp ->] | ->]; [left | by right].
  split; [| done]. apply existsb_exists. exists l. unfold line_has_polygon. by rewrite Hp.
Qed.

(** ** Properties of the transform *)

(** C1 (refinement).  On every analysis result that has the shape of
    the spec's data model, the code's [result_dict] returns exactly the
    spec's log: content copied, pages, lines and polygon points in
    source order, an absent line collection written as [[]]. *)
Theorem result_dict_refines (r : AnalyzeResult) (s : Spec.Result) :
  Spec.abstract r = Some s -> result_dict r = Ok (SpecLog.result_log s).
Proof.
  rewrite result_dict_unfold. unfold Spec.abstract.
  destruct (result_content r) as [c|]; simpl; [| discriminate].
  destruct (result_pages r) as [pgs|]; simpl; [| discriminate].
  destruct (mapM Spec.page_of pgs) as [ps|] eqn:Hm; simpl; [| discriminate].
  intros [= <-]. by rewrite (mapR_mapM _ _ _ _ _ page_data_spec Hm).
Qed.

(** C4 (error).  [result_dict] succeeds exactly when [result.pages] is
    present and every line of every page with lines has a polygon made
    of points.  Missing scalar fields never make it raise. *)
Theorem result_dict_ok_iff (r : AnalyzeResult) :
  is_ok (result_dict r) = shape_ok r.
Proof.
  rewrite result_dict_unfold. unfold shape_ok.
  destruct (result_pages r) as [pgs|]; simpl; [| done].
  rewrite <- (is_ok_mapR _ _ _ page_data_ok). by destruct (mapR _ _).
Qed.

(** C5 (functional).  On success the ["pages"] list has one entry per
    page of [result.pages], in the same order: entry [i] is the page
    dict of page [i]. *)
Theorem result_dict_pages (r : AnalyzeResult) (v : pyval) :
  result_dict r = Ok v ->
  exists pgs ds, result_pages r = Some pgs /\
    py_getitem "pages" v = Some (PList ds) /\
    length ds = length pgs /\
    Forall2 (fun pg d => page_data pg = Ok d) pgs ds.
Proof.
  rewrite result_dict_unfold.
  destruct (result_pages r) as [pgs|]; simpl; [| discriminate].
  destruct (mapR page_data pgs) as [ds|] eqn:Hm; simpl; [| discriminate].
  intros [= <-]. exists pgs, ds. split_and!; [done | done | |].
  - by apply (mapR_length page_data).
  - by apply mapR_Ok_iff.
Qed.

(** C6 (functional).  A page whose line collection is absent or empty
    yields a dict with ["lines": []]: the key is there, the list is
    empty, and building the dict cannot raise. *)
Theorem page_data_no_lines (pg : DocumentPage) :
  py_truthy_list (page_lines pg) = false ->
  exists v, page_data pg = Ok v /\ py_getitem "lines" v = Some (PList []).
Proof.
  unfold page_data. destruct (py_truthy_list _); [discriminate |]. simpl.
  intros _. by eexists.
Qed.

(** C7 (functional).  A line whose polygon is the points
    [(x1,y1) ... (xk,yk)] yields ["bounding_polygon":
    [{x:x1,y:y1} ... {x:xk,y:yk}]] in the same order, next to its
    content copied as it is. *)
Theorem line_data_polygon (l : DocumentLine) (pts : list (pyfloat * pyfloat)) :
  line_polygon l = Some (map (fun '(x, y) => PolyPoint x y) pts) ->
  line_data l =
    Ok (PDict [("content", py_opt PStr (line_content l));
               ("bounding_polygon",
                 PList (map (fun '(x, y) => PDict [("x", PFloat x); ("y", PFloat y)]) pts))]).
Proof.
  unfold line_data. intros ->. cbn -[mapR].
  assert (mapR point_data (map (fun '(x, y) => PolyPoint x y) pts) =
          Ok (map (fun '(x, y) => PDict [("x", PFloat x); ("y", PFloat y)]) pts)) as ->.
  { induction pts as [|[x y] pts IH]; simpl; [done |]. by rewrite IH. }
  done.
Qed.

(** C8 (functional).  On success the dict has exactly the keys
    ["content"] and ["pages"], in that order, and ["content"] is
    [result.content] as it is. *)
Theorem result_dict_content (r : AnalyzeResult) (v : pyval) :
  result_dict r = Ok v ->
  py_keys v = ["content"; "pages"] /\
  py_getitem "content" v = Some (py_opt PStr (result_content r)).
Proof.
  rewrite result_dict_unfold.
  destruct (py_iter _); simpl; [| discriminate].
  destruct (mapR _ _); simpl; [| discriminate]. by intros [= <-].
Qed.

(** ** What the transform does on results the spec does not describe *)

Lemma result_dict_Ok_shape (r : AnalyzeResult) :
  shape_ok r = true ->
  exists ds, result_dict r =
    Ok (PDict [("content", py_opt PStr (result_content r)); ("pages", PList ds)]).
Proof.
  rewrite result_dict_unfold. unfold shape_ok.
  destruct (result_pages r) as [pgs|]; simpl; [| discriminate].
  rewrite <- (is_ok_mapR _ _ _ page_data_ok).
  destruct (mapR page_data pgs) as [ds|]; simpl; [eauto | discriminate].
Qed.

Lemma result_dict_Err_page (r : AnalyzeResult) (e : pyexc) :
  result_dict r = Err e ->
  (result_pages r = None /\ e = TypeError) \/
  exists pgs pg, result_pages r = Some pgs /\ In pg pgs /\ page_data pg = Err e.
Proof.
  rewrite result_dict_unfold.
  destruct (result_pages r) as [pgs|]; simpl; [| intros [= <-]; auto].
  destruct (mapR page_data pgs) eqn:Hm; simpl; [discriminate | intros [= <-]].
  apply mapR_Err_elem in Hm as (pg & Hin & Hpg). right. eauto.
Qed.

Lemma polygons_present_page (r : AnalyzeResult) (pgs : list DocumentPage) (pg : DocumentPage) :
  polygons_present r = true -> result_pages r = Some pgs -> In pg pgs ->
  existsb (fun l => negb (line_has_polygon l)) (default [] (page_lines pg)) = false.
Proof.
  unfold polygons_present. intros Hp Hr Hin. rewrite Hr in Hp.
  apply forallb_forall with (x := pg) in Hp; [| done].
  apply Bool.not_true_iff_false. intros (l & Hl & Hn)%existsb_exists.
  apply forallb_forall with (x := l) in Hp; [| done].
  by rewrite Hp in Hn.
Qed.

(** A result of the spec's shape passes every check of the code. *)
Lemma abstract_shape_ok (r : AnalyzeResult) (s : Spec.Result) :
  Spec.abstract r = Some s -> shape_ok r = true.
Proof.
  unfold Spec.abstract, shape_ok.
  destruct (result_content r), (result_pages r) as [pgs|]; simpl; try discriminate.
  destruct (mapM Spec.page_of pgs) as [ps|] eqn:Hm; simpl; [intros _ | discriminate].
  rewrite <- (is_ok_mapR _ _ _ page_data_ok).
  by rewrite (mapR_mapM _ _ _ _ _ page_data_spec Hm).
Qed.

(** C19 (error, spec divergence).  A result without [content] is not
    rejected: the spec says the transform fails with MissingField, but
    the code writes ["content": None], which [json.dump] writes as
    [null]. *)
Theorem result_dict_missing_content (r : AnalyzeResult) :
  result_content r = None -> shape_ok r = true ->
  exists v, result_dict r = Ok v /\ py_getitem "content" v = Some PNone.
Proof.
  intros Hc (ds & Hd)%result_dict_Ok_shape.
  exists (PDict [("content", PNone); ("pages", PList ds)]).
  rewrite Hd, Hc. done.
Qed.

(** C20 (error, code bug).  On the result shape of
    [azure-ai-documentintelligence] 1.x, the SDK the script imports,
    [line.polygon] is a flat list of floats.  As soon as one line of one
    page has a coordinate, [p.x] raises [AttributeError] and no log is
    produced. *)
Theorem result_dict_float_polygon (r : AnalyzeResult) (pgs : list DocumentPage)
    (pg : DocumentPage) (ls : list DocumentLine) (l : DocumentLine)
    (pts : list poly_elem) (f : pyfloat) :
  polygons_present r = true -> result_pages r = Some pgs -> In pg pgs ->
  page_lines pg = Some ls -> In l ls -> line_polygon l = Some pts ->
  In (PolyFloat f) pts ->
  result_dict r = Err AttributeError.
Proof.
  intros Hp Hr Hpg Hls Hl Hpts Hf.
  assert (is_ok (page_data pg) = false) as Hbad.
  { rewrite page_data_ok. unfold page_ok. rewrite Hls.
    apply Bool.not_true_iff_false. intros Hall.
    apply forallb_forall with (x := l) in Hall; [| done].
    unfold line_ok in Hall. rewrite Hpts in Hall.
    by apply forallb_forall with (x := PolyFloat f) in Hall. }
  destruct (result_dict r) as [v|e] eqn:Hd.
  - rewrite result_dict_unfold, Hr in Hd. simpl in Hd.
    assert (forallb page_ok pgs = true) as Hall.
    { rewrite <- (is_ok_mapR _ _ _ page_data_ok).
      destruct (mapR page_data pgs); simpl in Hd; [done | discriminate]. }
    apply forallb_forall with (x := pg) in Hall; [| done].
    by rewrite page_data_ok, Hall in Hbad.
  - apply result_dict_Err_page in Hd as [[Hn _] | (pgs' & pg' & Hr' & Hin & He)];
      [congruence |].
    rewrite Hr in Hr'. injection Hr' as <-.
    apply page_data_Err in He as [[Hx _] | ->]; [| done].
    by rewrite (polygons_present_page r pgs pg' Hp Hr Hin) in Hx.
Qed.

(** C21 (error).  The transform raises only [TypeError] or
    [AttributeError].  [TypeError] is raised only when [result.pages] or
    some polygon the loop reaches is [None]; there is no MissingField
    check. *)
Theorem result_dict_exceptions (r : AnalyzeResult) (e : pyexc) :
  result_dict r = Err e ->
  (polygons_present r = false /\ e = TypeError) \/ e = AttributeError.
Proof.
  intros [[Hn ->] | (pgs & pg & Hr & Hin & He)]%result_dict_Err_page.
  - left. unfold polygons_present. by rewrite Hn.
  - apply page_data_Err in He as [[Hx ->] | ->]; [left | by right].
    split; [| done].
    destruct (polygons_present r) eqn:Hp; [| done].
    by rewrite (polygons_present_page r pgs pg Hp Hr Hin) in Hx.
Qed.

(** ** Concrete runs *)

Module Examples.
(** The scenario of spec section 8: one 800x600 pixel page with the
    lines "Hello" and "World". *)
Definition f0 : pyfloat := mk_float "0.0".
Definition f5 : pyfloat := mk_float "5.0".
Definition f10 : pyfloat := mk_float "10.0".
Definition f15 : pyfloat := mk_float "15.0".
Definition f600 : pyfloat := mk_float "600.0".
Definition f800 : pyfloat := mk_float "800.0".

Definition hello_pts : list (pyfloat * pyfloat) := [(f0, f0); (f10, f0); (f10, f5); (f0, f5)].
Definition world_pts : list (pyfloat * pyfloat) := [(f0, f10); (f10, f10); (f10, f15); (f0, f15)].

Definition sdk_line (c : string) (pts : list (pyfloat * pyfloat)) : DocumentLine :=
  {| line_content := Some c;
     line_polygon := Some (map (fun '(x, y) => PolyPoint x y) pts) |}.

Definition scenario_page : DocumentPage :=
  {| page_number := Some 1%Z; page_width := Some f800; page_height := Some f600;
     page_unit := Some "pixel";
     page_lines := Some [sdk_line "Hello" hello_pts; sdk_line "World" world_pts] |}.

Definition scenario : AnalyzeResult :=
  {| result_content := Some "Hello World"; result_pages := Some [scenario_page] |}.

Definition spec_line (c : string) (pts : list (pyfloat * pyfloat)) : Spec.Line :=
  {| Spec.content := c;
     Spec.bounding_polygon := map (fun '(x, y) => {| Spec.x := x; Spec.y := y |}) pts |}.

Definition scenario_spec : Spec.Result :=
  {| Spec.rcontent := "Hello World";
     Spec.pages := [{| Spec.page_number := 1; Spec.width := f800; Spec.height := f600;
                       Spec.unit := "pixel";
                       Spec.lines := [spec_line "Hello" hello_pts;
                                      spec_line "World" world_pts] |}] |}.

Definition scenario_log : pyval := SpecLog.result_log scenario_spec.

(** A page as the 1.x SDK returns it: the polygon is a flat float list. *)
Definition flat_page : DocumentPage :=
  {| page_number := Some 1%Z; page_width := Some f800; page_height := Some f600;
     page_unit := Some "pixel";
     page_lines := Some [{| line_content := Some "Hello";
                            line_polygon := Some (map PolyFloat [f0; f0; f10; f0; f10; f5; f0; f5]) |}] |}.

Definition flat_result : AnalyzeResult :=
  {| result_content := Some "Hello"; result_pages := Some [flat_page] |}.

Definition blank_page : DocumentPage :=
  {| page_number := Some 2%Z; page_width := Some f800; page_height := Some f600;
     page_unit := Some "pixel"; page_lines := None |}.
End Examples.

Import Examples.

Lemma result_dict_refines_witness :
  Spec.abstract scenario = Some scenario_spec /\
  result_dict scenario = Ok (SpecLog.result_log scenario_spec).
Proof. split; [vm_compute; reflexivity | apply result_dict_refines; vm_compute; reflexivity]. Defined.

Lemma result_dict_pages_witness :
  result_dict scenario = Ok scenario_log /\
  exists pgs ds, result_pages scenario = Some pgs /\
    py_getitem "pages" scenario_log = Some (PList ds) /\
    length ds = length pgs /\
    Forall2 (fun pg d => page_data pg = Ok d) pgs ds.
Proof.
  split; [vm_compute; reflexivity |].
  apply (result_dict_pages scenario scenario_log). vm_compute. reflexivity.
Defined.

Lemma page_data_no_lines_witness :
  py_truthy_list (page_lines blank_page) = false /\
  exists v, page_data blank_page = Ok v /\ py_getitem "lines" v = Some (PList []).
Proof. split; [reflexivity | apply page_data_no_lines; reflexivity]. Defined.

(** The scenario's first line: ["content": "Hello"] and the four points
    in order. *)
Lemma line_data_polygon_witness :
  line_polygon (sdk_line "Hello" hello_pts) = Some (map (fun '(x, y) => PolyPoint x y) hello_pts) /\
  line_data (sdk_line "Hello" hello_pts) =
    Ok (PDict [("content", PStr "Hello");
               ("bounding_polygon",
                 PList [PDict [("x", PFloat f0); ("y", PFloat f0)];
                        PDict [("x", PFloat f10); ("y", PFloat f0)];
                        PDict [("x", PFloat f10); ("y", PFloat f5)];
                        PDict [("x", PFloat f0); ("y", PFloat f5)]])]).
Proof.
  split; [reflexivity |].
  apply (line_data_polygon (sdk_line "Hello" hello_pts) hello_pts). reflexivity.
Defined.

Lemma result_dict_content_witness :
  result_dict scenario = Ok scenario_log /\
  py_keys scenario_log = ["content"; "pages"] /\
  py_getitem "content" scenario_log = Some (PStr "Hello World").
Proof.
  assert (result_dict scenario = Ok scenario_log) as H by (vm_compute; reflexivity).
  split; [exact H | apply (result_dict_content scenario scenario_log H)].
Defined.

Lemma result_dict_missing_content_witness :
  exists v, result_dict {| result_content := None; result_pages := Some [scenario_page] |} = Ok v /\
    py_getitem "content" v = Some PNone.
Proof. apply result_dict_missing_content; reflexivity. Defined.

Lemma result_dict_float_polygon_witness :
  result_dict flat_result = Err AttributeError.
Proof.
  apply (result_dict_float_polygon flat_result [flat_page] flat_page
           (default [] (page_lines flat_page)) (hd (sdk_line "" []) (default [] (page_lines flat_page)))
           (map PolyFloat [f0; f0; f10; f0; f10; f5; f0; f5]) f0);
    simpl; auto.
Defined.

Lemma result_dict_exceptions_witness :
  result_dict {| result_content := Some "x"; result_pages := None |} = Err TypeError /\
  ((polygons_present {| result_content := Some "x"; result_pages := None |} = false /\
    TypeError = TypeError) \/ TypeError = AttributeError).
Proof.
  assert (result_dict {| result_content := Some "x"; result_pages := None |} = Err TypeError) as H
    by reflexivity.
  split; [exact H | exact (result_dict_exceptions _ _ H)].
Defined.
