(* ===== verification/Json.v ===== *)
(** [json.dump(result_dict, log_file, ensure_ascii=False, indent=2)],
    line 95 of [src/main.py], on the values the script builds.  The
    printer follows CPython's [json.encoder]: with [indent=2] the
    separators are [","] and [": "], and a non-empty list or dict puts
    each item on its own line, indented two spaces per level.  An empty
    list or dict is written [[]] or [{}].  [py_encode_basestring]
    escapes only the quote, the backslash and the control characters
    (ensure_ascii=False), so every other byte is written literally.  A
    string is the UTF-8 encoding of the Python [str]; UTF-8 never puts
    a byte below 0x80 inside a multi-byte sequence, so escaping bytes is
    escaping code points.  The file also holds [json_loads], a reader
    for this fragment that is not part of the program: the theorems
    use it to say what the text means (the round trip). *)

From Stdlib Require Import String Ascii ZArith DecimalString DecimalZ.
From stdpp Require Import base list.
From S2P Require Import Prelude.

Local Open Scope string_scope.

(** ** Characters *)

Definition chr (n : nat) : ascii := ascii_of_nat n.
Definition str1 (c : ascii) : string := String c "".
Definition quote : ascii := chr 34.
Definition backslash : ascii := chr 92.
Definition newline : ascii := chr 10.

(** A lowercase hexadecimal digit ([0-9a-f]). *)
Definition hex_digit (n : nat) : ascii :=
  if Nat.ltb n 10 then chr (48 + n) else chr (87 + n).

(** ** The encoder *)

(** [ESCAPE_DCT] of [json.encoder]: the two-character escapes, and
    [\u00XX] for the other control characters. *)
Definition escape_char (c : ascii) : string :=
  let n := nat_of_ascii c in
  if Nat.eqb n 34 then String backslash (str1 quote)
  else if Nat.eqb n 92 then String backslash (str1 backslash)
  else if Nat.eqb n 8 then String backslash "b"
  else if Nat.eqb n 12 then String backslash "f"
  else if Nat.eqb n 10 then String backslash "n"
  else if Nat.eqb n 13 then String backslash "r"
  else if Nat.eqb n 9 then String backslash "t"
  else if Nat.ltb n 32 then
    String backslash ("u00" ++ String (hex_digit (n / 16)) (str1 (hex_digit (n mod 16))))
  else str1 c.

Fixpoint escape (s : string) : string :=
  match s with
  | "" => ""
  | String c s' => escape_char c ++ escape s'
  end.

(** [py_encode_basestring]. *)
Definition encode_basestring (s : string) : string :=
  String quote (escape s ++ str1 quote).

(** [int.__repr__]. *)
Definition int_repr (z : Z) : string := NilZero.string_of_int (Z.to_int z).

(** [floatstr] of [json.encoder] with [allow_nan=True]: the special
    values are written as JavaScript names, any other float by [repr]. *)
Definition float_str (r : string) : string :=
  if String.eqb r "nan" then "NaN"
  else if String.eqb r "inf" then "Infinity"
  else if String.eqb r "-inf" then "-Infinity"
  else r.

(** ['\n' + ' ' * (2 * level)]. *)
Fixpoint indent (level : nat) : string :=
  match level with
  | O => ""
  | S l => "  " ++ indent l
  end.

Definition newline_indent (level : nat) : string := String newline (indent level).

(** [g x1 ++ g x2 ++ ...]: the chunks of a loop over [l]. *)
Fixpoint concat_map_str {A} (g : A -> string) (l : list A) : string :=
  match l with
  | [] => ""
  | x :: l' => g x ++ concat_map_str g l'
  end.

(** The text of [v] at nesting [level], as one string: the reference
    definition of what [json.dumps] returns.  After the first item of a
    list or dict, each item is preceded by the separator [","] and a
    new indented line. *)
Fixpoint encode (level : nat) (v : pyval) : string :=
  match v with
  | PNone => "null"
  | PInt z => int_repr z
  | PFloat f => float_str (float_repr f)
  | PStr s => encode_basestring s
  | PList [] => "[]"
  | PList (x :: xs) =>
      "[" ++ newline_indent (S level) ++ encode (S level) x ++
      concat_map_str (fun y => "," ++ newline_indent (S level) ++ encode (S level) y) xs ++
      newline_indent level ++ "]"
  | PDict [] => "{}"
  | PDict ((k, x) :: kvs) =>
      "{" ++ newline_indent (S level) ++ encode_basestring k ++ ": " ++ encode (S level) x ++
      concat_map_str (fun kv => let '(k', y) := kv in
                        "," ++ newline_indent (S level) ++ encode_basestring k' ++ ": " ++
                        encode (S level) y) kvs ++
      newline_indent level ++ "}"
  end.

(** What [json.dump(v, f, ensure_ascii=False, indent=2)] writes. *)
Definition json_dumps (v : pyval) : string := encode 0 v.

(** ** The chunks [json.dump] writes *)

(** [json.dump] does not build the text: it writes, one [fp.write]
    each, the chunks that the generator of [_make_iterencode] yields
    (with [indent] set, the C encoder is not used). *)

(** The chunk of a value that is not a container. *)
Definition scalar_str (v : pyval) : string :=
  match v with
  | PNone => "null"
  | PInt z => int_repr z
  | PFloat f => float_str (float_repr f)
  | PStr s => encode_basestring s
  | PList _ | PDict _ => ""
  end.

Definition is_container (v : pyval) : bool :=
  match v with PList _ | PDict _ => true | _ => false end.

(** [for x in l: yield from g(x)]. *)
Fixpoint concat_map_list {A B} (g : A -> list B) (l : list A) : list B :=
  match l with
  | [] => []
  | x :: l' => app (g x) (concat_map_list g l')
  end.

(** [_iterencode], [_iterencode_list] and [_iterencode_dict] at
    [_current_indent_level = level].  In a list, the separator [buf]
    ([["[" + newline_indent]] before the first item, [["," +
    newline_indent]] before the others) is yielded together with a
    scalar item and alone before a container.  In a dict, the separator,
    the key and [": "] are chunks of their own.  The closing line and
    bracket are two chunks. *)
Fixpoint iterencode (level : nat) (v : pyval) : list string :=
  match v with
  | PList [] => ["[]"]
  | PList (x :: xs) =>
      app (if is_container x then ("[" ++ newline_indent (S level)) :: iterencode (S level) x
           else [("[" ++ newline_indent (S level)) ++ scalar_str x])
     (app (concat_map_list (fun y =>
             if is_container y then ("," ++ newline_indent (S level)) :: iterencode (S level) y
             else [("," ++ newline_indent (S level)) ++ scalar_str y]) xs)
          [newline_indent level; "]"])
  | PDict [] => ["{}"]
  | PDict ((k, x) :: kvs) =>
      app ["{"; newline_indent (S level); encode_basestring k; ": "]
     (app (iterencode (S level) x)
     (app (concat_map_list (fun kv => let '(k', y) := kv in
             app ["," ++ newline_indent (S level); encode_basestring k'; ": "]
                 (iterencode (S level) y)) kvs)
          [newline_indent level; "}"]))
  | _ => [scalar_str v]
  end.

(** [''.join(chunks)]. *)
Definition join (chunks : list string) : string := fold_right append "" chunks.

(** ** Reading the document back *)

Definition is_ws (c : ascii) : bool :=
  let n := nat_of_ascii c in Nat.eqb n 32 || Nat.eqb n 10 || Nat.eqb n 13 || Nat.eqb n 9.

Fixpoint skip_ws (s : string) : string :=
  match s with
  | String c s' => if is_ws c then skip_ws s' else s
  | "" => ""
  end.

(** Characters of a JSON number token. *)
Definition is_num_char (c : ascii) : bool :=
  let n := nat_of_ascii c in
  (Nat.leb 48 n && Nat.leb n 57) || Nat.eqb n 45 || Nat.eqb n 43 || Nat.eqb n 46 ||
  Nat.eqb n 101 || Nat.eqb n 69.

(** A fraction or exponent marks a float token. *)
Definition is_float_mark (c : ascii) : bool :=
  let n := nat_of_ascii c in Nat.eqb n 46 || Nat.eqb n 101 || Nat.eqb n 69.

Fixpoint take_num (s : string) : string * string :=
  match s with
  | String c s' => if is_num_char c then let '(t, r) := take_num s' in (String c t, r) else ("", s)
  | "" => ("", "")
  end.

Definition str_forallb (p : ascii -> bool) (s : string) : bool := forallb p (list_ascii_of_string s).
Definition str_existsb (p : ascii -> bool) (s : string) : bool := existsb p (list_ascii_of_string s).

(** The [repr] of a finite float is a number token with a fraction or an
    exponent (["800.0"], ["1e-05"], ["-0.5"]). *)
Definition valid_float_repr (s : string) : bool :=
  negb (String.eqb s "") && str_forallb is_num_char s && str_existsb is_float_mark s.

Definition parse_number (tok : string) : option pyval :=
  if str_existsb is_float_mark tok then Some (PFloat (mk_float tok))
  else z ← NilZero.int_of_string tok; Some (PInt (Z.of_int z)).

Definition hex_val (c : ascii) : option nat :=
  let n := nat_of_ascii c in
  if Nat.leb 48 n && Nat.leb n 57 then Some (n - 48)
  else if Nat.leb 97 n && Nat.leb n 102 then Some (n - 87)
  else None.

(** The character of a two-character escape [\e]. *)
Definition unescape (e : ascii) : option ascii :=
  let n := nat_of_ascii e in
  if Nat.eqb n 34 then Some quote
  else if Nat.eqb n 92 then Some backslash
  else if Nat.eqb n 47 then Some (chr 47)
  else if Nat.eqb n 98 then Some (chr 8)
  else if Nat.eqb n 102 then Some (chr 12)
  else if Nat.eqb n 110 then Some (chr 10)
  else if Nat.eqb n 114 then Some (chr 13)
  else if Nat.eqb n 116 then Some (chr 9)
  else None.

(** The body of a string literal up to its closing quote.  A [\uXXXX]
    escape is read for ASCII code points only. *)
Fixpoint parse_chars (s : string) : option (string * string) :=
  match s with
  | "" => None
  | String c s' =>
      if Ascii.eqb c quote then Some ("", s')
      else if Ascii.eqb c backslash then
        match s' with
        | String e s'' =>
            if Ascii.eqb e "u" then
              match s'' with
              | String h1 (String h2 (String h3 (String h4 r))) =>
                  d1 ← hex_val h1; d2 ← hex_val h2; d3 ← hex_val h3; d4 ← hex_val h4;
                  let n := ((d1 * 16 + d2) * 16 + d3) * 16 + d4 in
                  if Nat.ltb n 128 then '(t, r') ← parse_chars r; Some (String (chr n) t, r')
                  else None
              | _ => None
              end
            else u ← unescape e; '(t, r') ← parse_chars s''; Some (String u t, r')
        | "" => None
        end
      else if Nat.ltb (nat_of_ascii c) 32 then None
      else '(t, r') ← parse_chars s'; Some (String c t, r')
  end.

Fixpoint parse_value (fuel : nat) (s : string) {struct fuel} : option (pyval * string) :=
  match fuel with
  | O => None
  | S f =>
      match skip_ws s with
      | "" => None
      | String c r =>
          if Ascii.eqb c "n" then
            match r with
            | String "u" (String "l" (String "l" r')) => Some (PNone, r')
            | _ => None
            end
          else if Ascii.eqb c quote then '(t, r') ← parse_chars r; Some (PStr t, r')
          else if Ascii.eqb c "[" then
            match skip_ws r with
            | String c' r' =>
                if Ascii.eqb c' "]" then Some (PList [], r')
                else '(vs, r'') ← parse_elems f r; Some (PList vs, r'')
            | "" => None
            end
          else if Ascii.eqb c "{" then
            match skip_ws r with
            | String c' r' =>
                if Ascii.eqb c' "}" then Some (PDict [], r')
                else '(kvs, r'') ← parse_members f r; Some (PDict kvs, r'')
            | "" => None
            end
          else if is_num_char c then
            let '(tok, r') := take_num (String c r) in
            v ← parse_number tok; Some (v, r')
          else None
      end
  end
(** The elements of a non-empty list, up to its [\]]. *)
with parse_elems (fuel : nat) (s : string) {struct fuel} : option (list pyval * string) :=
  match fuel with
  | O => None
  | S f =>
      '(v, r) ← parse_value f s;
      match skip_ws r with
      | String c r' =>
          if Ascii.eqb c "," then '(vs, r'') ← parse_elems f r'; Some (v :: vs, r'')
          else if Ascii.eqb c "]" then Some ([v], r')
          else None
      | "" => None
      end
  end
(** The members of a non-empty dict, up to its [}]. *)
with parse_members (fuel : nat) (s : string) {struct fuel}
    : option (list (string * pyval) * string) :=
  match fuel with
  | O => None
  | S f =>
      match skip_ws s with
      | String q r =>
          if Ascii.eqb q quote then
            '(k, r1) ← parse_chars r;
            match skip_ws r1 with
            | String ":" r2 =>
                '(v, r3) ← parse_value f r2;
                match skip_ws r3 with
                | String c r4 =>
                    if Ascii.eqb c "," then '(kvs, r5) ← parse_members f r4; Some ((k, v) :: kvs, r5)
                    else if Ascii.eqb c "}" then Some ([(k, v)], r4)
                    else None
                | "" => None
                end
            | _ => None
            end
          else None
      | "" => None
      end
  end.

(** [json.loads] on this fragment: one value and trailing whitespace. *)
Definition json_loads (s : string) : option pyval :=
  '(v, r) ← parse_value (S (String.length s)) s;
  if String.eqb (skip_ws r) "" then Some v else None.


(** ** Well-formed values and their size *)

(** Every float in [v] is the [repr] of a finite float. *)
Fixpoint wf_val (v : pyval) : bool :=
  match v with
  | PFloat f => valid_float_repr (float_repr f)
  | PList l => forallb wf_val l
  | PDict kvs => forallb (fun kv => wf_val (snd kv)) kvs
  | _ => true
  end.

(** The fuel the parser spends on [v]. *)
Fixpoint json_size (v : pyval) : nat :=
  match v with
  | PList l => S (sum_list_with (fun x => S (json_size x)) l)
  | PDict kvs => S (sum_list_with (fun kv => S (json_size (snd kv))) kvs)
  | _ => 1
  end.

(** Induction on [pyval] through the lists it nests. *)
Section PyvalInd.
Context (P : pyval -> Prop).
Hypothesis HNone : P PNone.
Hypothesis HInt : forall z, P (PInt z).
Hypothesis HFloat : forall f, P (PFloat f).
Hypothesis HStr : forall s, P (PStr s).
Hypothesis HList : forall l, Forall P l -> P (PList l).
Hypothesis HDict : forall kvs, Forall (fun kv => P (snd kv)) kvs -> P (PDict kvs).

Fixpoint pyval_ind' (v : pyval) : P v :=
  match v with
  | PNone => HNone
  | PInt z => HInt z
  | PFloat f => HFloat f
  | PStr s => HStr s
  | PList l =>
      HList l ((fix go (l : list pyval) : Forall P l :=
                  match l with
                  | [] => @List.Forall_nil pyval P
                  | x :: l' => @List.Forall_cons pyval P x l' (pyval_ind' x) (go l')
                  end) l)
  | PDict kvs =>
      HDict kvs ((fix go (l : list (string * pyval)) : Forall (fun kv => P (snd kv)) l :=
                    match l with
                    | [] => @List.Forall_nil _ (fun kv => P (snd kv))
                    | (k, x) :: l' =>
                        @List.Forall_cons _ (fun kv => P (snd kv)) (k, x) l' (pyval_ind' x) (go l')
                    end) kvs)
  end.
End PyvalInd.

(** ** Predicates of the round trip *)

Definition is_digit (c : ascii) : bool :=
  Nat.leb 48 (nat_of_ascii c) && Nat.leb (nat_of_ascii c) 57.

(** A number token may be followed by anything but a number character. *)
Definition ends_value (rest : string) : bool :=
  match rest with
  | "" => true
  | String c _ => negb (is_num_char c)
  end.

(** A character that can start a value: not whitespace, not a closing
    bracket. *)
Definition head_ok (c : ascii) : bool :=
  negb (is_ws c) && negb (Ascii.eqb c "]") && negb (Ascii.eqb c "}").

(** [v] is read back from its text at any nesting level, followed by
    any text that cannot continue a number. *)
Definition rt (v : pyval) : Prop :=
  forall lvl f rest, wf_val v = true -> json_size v <= f -> ends_value rest = true ->
  parse_value f (encode lvl v ++ rest) = Some (v, rest).

(** A byte [py_encode_basestring] copies: not a control character, not
    the quote, not the backslash.  Every byte of the UTF-8 encoding of a
    non-ASCII character is one. *)
Definition plain_char (c : ascii) : bool :=
  negb (Nat.ltb (nat_of_ascii c) 32) && negb (Ascii.eqb c quote) && negb (Ascii.eqb c backslash).

(** A byte of a JSON text outside its string literals' escapes: no
    control character but the line feed of the indentation. *)
Definition text_char (c : ascii) : bool :=
  negb (Nat.ltb (nat_of_ascii c) 32) || Ascii.eqb c newline.

(** ** Lemmas on characters *)

Lemma nat_of_chr (n : nat) : n < 256 -> nat_of_ascii (chr n) = n.
Proof. apply nat_ascii_embedding. Qed.

Lemma chr_nat (c : ascii) : chr (nat_of_ascii c) = c.
Proof. apply ascii_nat_embedding. Qed.

Lemma nat_of_ascii_bound (c : ascii) : nat_of_ascii c < 256.
Proof. apply nat_ascii_bounded. Qed.

(** A character is decided by its code. *)
Lemma ascii_eqb_code (c d : ascii) :
  Ascii.eqb c d = Nat.eqb (nat_of_ascii c) (nat_of_ascii d).
Proof.
  destruct (Ascii.eqb_spec c d) as [-> | Hne]; [by rewrite Nat.eqb_refl |].
  symmetry. apply Nat.eqb_neq. intros Heq. apply Hne.
  by rewrite <- (chr_nat c), <- (chr_nat d), Heq.
Qed.

Lemma hex_val_digit (d : nat) : d < 16 -> hex_val (hex_digit d) = Some d.
Proof.
  intros Hd. unfold hex_val, hex_digit.
  destruct (Nat.ltb_spec d 10); rewrite nat_of_chr by lia;
    repeat match goal with |- context [Nat.leb ?a ?b] => destruct (Nat.leb_spec a b) end;
    simpl; try (f_equal; lia); lia.
Qed.

(** ** Whitespace *)

Lemma skip_ws_nonws (c : ascii) (s : string) :
  is_ws c = false -> skip_ws (String c s) = String c s.
Proof. intros H. simpl. by rewrite H. Qed.

Lemma skip_ws_indent (n : nat) (s : string) : skip_ws (indent n ++ s) = skip_ws s.
Proof. induction n as [|n IH]; simpl; [done | exact IH]. Qed.

Lemma skip_ws_newline_indent (n : nat) (s : string) :
  skip_ws (newline_indent n ++ s) = skip_ws s.
Proof. apply skip_ws_indent. Qed.

(** ** Strings: escaping is undone by [parse_chars] *)

Lemma parse_chars_escape_char (c : ascii) (t : string) :
  parse_chars (escape_char c ++ t) =
    '(u, r) ← parse_chars t; Some (String c u, r).
Proof.
  pose proof (nat_of_ascii_bound c) as Hb. rewrite <- (chr_nat c).
  set (n := nat_of_ascii c) in *. clearbody n. clear c.
  unfold escape_char. rewrite nat_of_chr by done.
  destruct (Nat.eqb_spec n 34) as [->|]; [reflexivity |].
  destruct (Nat.eqb_spec n 92) as [->|]; [reflexivity |].
  destruct (Nat.eqb_spec n 8) as [->|]; [reflexivity |].
  destruct (Nat.eqb_spec n 12) as [->|]; [reflexivity |].
  destruct (Nat.eqb_spec n 10) as [->|]; [reflexivity |].
  destruct (Nat.eqb_spec n 13) as [->|]; [reflexivity |].
  destruct (Nat.eqb_spec n 9) as [->|]; [reflexivity |].
  destruct (Nat.ltb_spec n 32).
  - pose proof (Nat.div_mod_eq n 16). pose proof (Nat.mod_upper_bound n 16).
    assert (n / 16 < 16) by (apply Nat.Div0.div_lt_upper_bound; lia).
    set (q := n / 16) in *. set (r := n mod 16) in *. clearbody q r.
    simpl. rewrite !hex_val_digit by lia. simpl.
    replace (q * 16 + r) with n by lia.
    by rewrite (proj2 (Nat.ltb_lt n 128)) by lia.
  - simpl. rewrite !ascii_eqb_code, !nat_of_chr by lia.
    rewrite (proj2 (Nat.eqb_neq n _)), (proj2 (Nat.eqb_neq n _)) by done.
    by rewrite (proj2 (Nat.ltb_ge n 32)) by lia.
Qed.

Lemma parse_chars_escape (s r : string) :
  parse_chars (escape s ++ String quote r) = Some (s, r).
Proof.
  induction s as [|c s IH]; [reflexivity |].
  simpl. rewrite str_app_assoc, parse_chars_escape_char, IH. reflexivity.
Qed.

(** ** Numbers *)

Lemma uint_digits (d : Decimal.uint) :
  str_forallb is_digit (NilEmpty.string_of_uint d) = true.
Proof. induction d; simpl; auto. Qed.

Lemma str_forallb_impl (p q : ascii -> bool) (s : string) :
  (forall c, p c = true -> q c = true) -> str_forallb p s = true -> str_forallb q s = true.
Proof.
  intros Hpq. unfold str_forallb. rewrite !forallb_forall. intros H c Hc. by apply Hpq, H.
Qed.

Lemma digit_num_char (c : ascii) : is_digit c = true -> is_num_char c = true.
Proof. unfold is_digit, is_num_char. intros ->. done. Qed.

Lemma digit_not_mark (c : ascii) : is_digit c = true -> is_float_mark c = false.
Proof.
  unfold is_digit, is_float_mark. intros [H1 H2]%andb_prop.
  apply Nat.leb_le in H1, H2.
  repeat match goal with |- context [Nat.eqb ?a ?b] => destruct (Nat.eqb_spec a b) end; simpl; lia.
Qed.

Lemma str_existsb_forallb (p q : ascii -> bool) (s : string) :
  (forall c, p c = true -> q c = false) -> str_forallb p s = true -> str_existsb q s = false.
Proof.
  intros Hpq. unfold str_forallb, str_existsb. rewrite forallb_forall. intros H.
  apply Bool.not_true_iff_false. intros (c & Hc & Hq)%existsb_exists.
  by rewrite (Hpq c (H c Hc)) in Hq.
Qed.

(** [int.__repr__] writes an optional minus sign and digits. *)
Lemma int_repr_chars (z : Z) :
  int_repr z <> "" /\ str_forallb is_num_char (int_repr z) = true /\
  str_existsb is_float_mark (int_repr z) = false.
Proof.
  unfold int_repr.
  assert (forall d, NilZero.string_of_uint d <> "" /\
            str_forallb is_digit (NilZero.string_of_uint d) = true) as Hu.
  { intros d. destruct d; [split; [discriminate | reflexivity] | ..];
      (split; [discriminate | exact (uint_digits _)]). }
  destruct (Z.to_int z) as [d|d]; destruct (Hu d) as [Hne Hd]; simpl.
  - split_and!; [done | by eapply str_forallb_impl; [apply digit_num_char |] |].
    by eapply str_existsb_forallb; [apply digit_not_mark |].
  - split_and!; [discriminate | |].
    + unfold str_forallb. simpl. by apply (str_forallb_impl _ _ _ digit_num_char).
    + unfold str_existsb. simpl. by apply (str_existsb_forallb _ _ _ digit_not_mark).
Qed.

Lemma int_repr_parse (z : Z) : parse_number (int_repr z) = Some (PInt z).
Proof.
  unfold parse_number. rewrite (proj2 (proj2 (int_repr_chars z))). unfold int_repr.
  rewrite <- (DecimalZ.of_to z) at 2. destruct (Z.to_int z) as [d|d] eqn:E.
  - destruct d; try (rewrite NilZero.isi by discriminate; reflexivity). reflexivity.
  - destruct d; try (rewrite NilZero.isi by discriminate; reflexivity). reflexivity.
Qed.

(** A finite float is written by its [repr]. *)
Lemma float_str_valid (r : string) : valid_float_repr r = true -> float_str r = r.
Proof.
  unfold float_str. intros H.
  destruct (String.eqb_spec r "nan") as [->|]; [done |].
  destruct (String.eqb_spec r "inf") as [->|]; [done |].
  by destruct (String.eqb_spec r "-inf") as [->|].
Qed.

Lemma float_repr_parse (f : pyfloat) :
  valid_float_repr (float_repr f) = true -> parse_number (float_repr f) = Some (PFloat f).
Proof.
  unfold valid_float_repr, parse_number. intros [_ ->]%andb_prop. by destruct f.
Qed.

Lemma take_num_app (tok rest : string) :
  str_forallb is_num_char tok = true -> ends_value rest = true ->
  take_num (tok ++ rest) = (tok, rest).
Proof.
  intros Ht Hr. induction tok as [|c tok IH]; cbn [take_num append].
  - destruct rest as [|c rest]; [done |]. cbn [ends_value] in Hr.
    apply negb_true_iff in Hr. cbn [take_num]. by rewrite Hr.
  - unfold str_forallb in Ht. cbn [list_ascii_of_string forallb] in Ht.
    apply andb_prop in Ht as [-> Ht]. by rewrite IH.
Qed.

Lemma num_char_ne (c d : ascii) :
  is_num_char c = true -> is_num_char d = false -> Ascii.eqb c d = false.
Proof.
  intros Hc Hd. destruct (Ascii.eqb_spec c d) as [-> |]; [congruence | done].
Qed.

Lemma num_char_not_ws (c : ascii) : is_num_char c = true -> is_ws c = false.
Proof.
  unfold is_num_char, is_ws. intros H.
  repeat match goal with
         | H : context [Nat.eqb ?a ?b] |- _ => destruct (Nat.eqb_spec a b)
         | |- context [Nat.eqb ?a ?b] => destruct (Nat.eqb_spec a b)
         | H : context [Nat.leb ?a ?b] |- _ => destruct (Nat.leb_spec a b)
         end; simpl in *; try lia; done.
Qed.

(** A number token followed by a delimiter is read back. *)
Lemma parse_value_number (f : nat) (tok rest : string) (v : pyval) :
  tok <> "" -> str_forallb is_num_char tok = true -> ends_value rest = true ->
  parse_number tok = Some v -> parse_value (S f) (tok ++ rest) = Some (v, rest).
Proof.
  intros Hne Ht Hr Hp. destruct tok as [|c t]; [done |].
  assert (is_num_char c = true) as Hc by (unfold str_forallb in Ht; simpl in Ht; by apply andb_prop in Ht as [? _]).
  cbn [parse_value append]. rewrite (skip_ws_nonws c _ (num_char_not_ws c Hc)).
  rewrite !(num_char_ne c) by (done || reflexivity).
  rewrite Hc. change (String c (t ++ rest)) with (String c t ++ rest).
  by rewrite take_num_app, Hp.
Qed.

(** ** Whitespace between tokens *)

Lemma skip_ws_app_ws (w s : string) :
  str_forallb is_ws w = true -> skip_ws (w ++ s) = skip_ws s.
Proof.
  induction w as [|c w IH]; [done |]. unfold str_forallb. cbn [list_ascii_of_string forallb].
  intros [Hc Hw]%andb_prop. cbn [append skip_ws]. rewrite Hc. by apply IH.
Qed.

Lemma indent_ws (n : nat) : str_forallb is_ws (indent n) = true.
Proof. induction n as [|n IH]; [done |]. exact IH. Qed.

Lemma newline_indent_ws (n : nat) : str_forallb is_ws (newline_indent n) = true.
Proof. apply (indent_ws n). Qed.

Lemma parse_value_ws (f : nat) (w s : string) :
  str_forallb is_ws w = true -> parse_value f (w ++ s) = parse_value f s.
Proof. intros H. destruct f; [done |]. cbn [parse_value]. by rewrite skip_ws_app_ws. Qed.

Lemma parse_value_space (f : nat) (s : string) : parse_value f (String " " s) = parse_value f s.
Proof. by apply (parse_value_ws f " "). Qed.

Lemma parse_members_ws (f : nat) (w s : string) :
  str_forallb is_ws w = true -> parse_members f (w ++ s) = parse_members f s.
Proof. intros H. destruct f; [done |]. cbn [parse_members]. by rewrite skip_ws_app_ws. Qed.


Lemma num_token_head (tok t : string) :
  tok <> "" -> str_forallb is_num_char tok = true ->
  exists c u, tok ++ t = String c u /\ head_ok c = true.
Proof.
  destruct tok as [|c tok]; [done |]. intros _ H. exists c, (tok ++ t). split; [done |].
  unfold str_forallb in H. cbn [list_ascii_of_string forallb] in H. apply andb_prop in H as [Hc _].
  unfold head_ok. rewrite num_char_not_ws, !(num_char_ne c) by (done || reflexivity). done.
Qed.

Lemma encode_head (lvl : nat) (v : pyval) (t : string) :
  wf_val v = true -> exists c u, encode lvl v ++ t = String c u /\ head_ok c = true.
Proof.
  intros Hwf. destruct v as [| z | f | s | [|x xs] | [|[k x] kvs]];
    try (eexists _, _; split; [reflexivity | done]).
  - destruct (int_repr_chars z) as (? & ? & _). by apply num_token_head.
  - cbn [wf_val encode] in *. rewrite float_str_valid by done. unfold valid_float_repr in Hwf.
    apply andb_prop in Hwf as [[Hne Hc]%andb_prop _]. apply num_token_head; [| done].
    intros E. by rewrite E in Hne.
Qed.

Lemma parse_elems_encode (lvl : nat) (x : pyval) (xs : list pyval) (f : nat) (rest : string) :
  Forall rt (x :: xs) -> forallb wf_val (x :: xs) = true ->
  sum_list_with (fun y => S (json_size y)) (x :: xs) <= f ->
  parse_elems f
    (newline_indent (S lvl) ++ encode (S lvl) x ++
     concat_map_str (fun y => String "," (newline_indent (S lvl) ++ encode (S lvl) y)) xs ++
     newline_indent lvl ++ String "]" rest) = Some (x :: xs, rest).
Proof.
  revert x f. induction xs as [|y xs IH]; intros x f Hrt Hwf Hf;
    destruct f as [|f]; cbn [sum_list_with] in Hf; try lia;
    apply Forall_cons in Hrt as [Hx Hrt]; cbn [forallb] in Hwf; apply andb_prop in Hwf as [Hwx Hwf];
    cbn [parse_elems]; rewrite parse_value_ws by apply newline_indent_ws.
  - cbn [concat_map_str append]. rewrite Hx by (done || lia).
    cbn [mbind option_bind]. rewrite skip_ws_app_ws by apply newline_indent_ws. reflexivity.
  - cbn [concat_map_str]. rewrite str_app_assoc. cbn [append]. rewrite Hx by (done || cbn [sum_list_with] in Hf; lia).
    cbn [mbind option_bind]. rewrite (skip_ws_nonws "," _) by reflexivity.
    change (Ascii.eqb "," ",") with true. cbv iota beta.
    rewrite str_app_assoc, IH by (done || cbn [sum_list_with]; lia). reflexivity.
Qed.

(** ** Values: [parse_value] undoes [encode] *)

Lemma encode_basestring_app (k t : string) :
  encode_basestring k ++ t = String quote (escape k ++ String quote t).
Proof. unfold encode_basestring. cbn [append]. by rewrite str_app_assoc. Qed.


Lemma parse_members_encode (lvl : nat) (k : string) (x : pyval) (kvs : list (string * pyval))
    (f : nat) (rest : string) :
  Forall (fun kv => rt (snd kv)) ((k, x) :: kvs) ->
  forallb (fun kv => wf_val (snd kv)) ((k, x) :: kvs) = true ->
  sum_list_with (fun kv => S (json_size (snd kv))) ((k, x) :: kvs) <= f ->
  parse_members f
    (newline_indent (S lvl) ++ encode_basestring k ++
     String ":" (String " " (encode (S lvl) x ++
       concat_map_str (fun '(k', y) => String "," (newline_indent (S lvl) ++
         encode_basestring k' ++ String ":" (String " " (encode (S lvl) y)))) kvs ++
       newline_indent lvl ++ String "}" rest))) = Some ((k, x) :: kvs, rest).
Proof.
  revert k x f. induction kvs as [|[k' y] kvs IH]; intros k x f Hrt Hwf Hf;
    destruct f as [|f]; cbn [sum_list_with snd] in Hf; try lia;
    apply Forall_cons in Hrt as [Hx Hrt]; cbn [forallb snd] in Hwf, Hx;
    apply andb_prop in Hwf as [Hwx Hwf];
    rewrite parse_members_ws by apply newline_indent_ws; cbn [parse_members];
    rewrite encode_basestring_app, (skip_ws_nonws quote _), Ascii.eqb_refl, parse_chars_escape
      by reflexivity;
    cbn [mbind option_bind skip_ws]; change (is_ws ":") with false; cbv iota beta;
    rewrite parse_value_space.
  - cbn [concat_map_str append]. rewrite Hx by (done || lia).
    cbn [mbind option_bind]. rewrite skip_ws_app_ws by apply newline_indent_ws. reflexivity.
  - cbn [concat_map_str]. rewrite str_app_assoc. cbn [append].
    rewrite Hx by (done || cbn [sum_list_with snd] in Hf; lia).
    cbn [mbind option_bind]. rewrite (skip_ws_nonws "," _) by reflexivity.
    change (Ascii.eqb "," ",") with true. cbv iota beta.
    rewrite !str_app_assoc. cbn [append].
    rewrite (IH k' y f); [reflexivity | done | done | cbn [sum_list_with snd]; lia].
Qed.

(** The branches of [parse_value] on the first character of a value. *)
Lemma parse_value_quote (f : nat) (s : string) :
  parse_value (S f) (String quote s) = '(t, r) ← parse_chars s; Some (PStr t, r).
Proof. reflexivity. Qed.

Lemma parse_value_bracket (f : nat) (s : string) :
  parse_value (S f) (String "[" s) =
    match skip_ws s with
    | String c' r' =>
        if Ascii.eqb c' "]" then Some (PList [], r')
        else '(vs, r'') ← parse_elems f s; Some (PList vs, r'')
    | "" => None
    end.
Proof. reflexivity. Qed.

Lemma parse_value_brace (f : nat) (s : string) :
  parse_value (S f) (String "{" s) =
    match skip_ws s with
    | String c' r' =>
        if Ascii.eqb c' "}" then Some (PDict [], r')
        else '(kvs, r'') ← parse_members f s; Some (PDict kvs, r'')
    | "" => None
    end.
Proof. reflexivity. Qed.

(** After an opening bracket, the text of a value is not the closing one. *)
Lemma skip_ws_encode_not_close {B} (lvl : nat) (v : pyval) (t : string) (d : ascii)
    (k1 : string -> B) (k2 none : B) :
  wf_val v = true -> d = "]"%char \/ d = "}"%char ->
  match skip_ws (encode lvl v ++ t) with
  | String c r => if Ascii.eqb c d then k1 r else k2
  | "" => none
  end = k2.
Proof.
  intros Hwf Hd. destruct (encode_head lvl v t Hwf) as (c & u & -> & Hc).
  unfold head_ok in Hc. apply andb_prop in Hc as [[Hws Hb]%andb_prop Hr].
  apply negb_true_iff in Hws, Hb, Hr. rewrite skip_ws_nonws by done.
  by destruct Hd as [-> | ->]; [rewrite Hb | rewrite Hr].
Qed.

Lemma parse_value_encode (v : pyval) : rt v.
Proof.
  induction v as [| z | fl | s | l IHl | kvs IHkvs] using pyval_ind';
    intros lvl f rest Hwf Hf Hr; destruct f as [|f]; cbn [json_size] in Hf; try lia.
  - reflexivity.
  - destruct (int_repr_chars z) as (? & ? & _).
    by apply parse_value_number; [..| apply int_repr_parse].
  - cbn [wf_val encode] in *. rewrite float_str_valid by done.
    pose proof Hwf as Hv. unfold valid_float_repr in Hv.
    apply andb_prop in Hv as [[Hne Hc]%andb_prop _].
    apply parse_value_number; [| done | done | by apply float_repr_parse].
    intros E. by rewrite E in Hne.
  - cbn [encode]. by rewrite encode_basestring_app, parse_value_quote, parse_chars_escape.
  - destruct l as [|x xs]; [reflexivity |]. cbn [wf_val forallb] in Hwf.
    apply andb_prop in Hwf as [Hwx Hwxs].
    cbn [encode]. rewrite !str_app_assoc. cbn [append].
    rewrite parse_value_bracket, skip_ws_app_ws by apply newline_indent_ws.
    rewrite skip_ws_encode_not_close by auto.
    rewrite (parse_elems_encode lvl x xs f rest); [reflexivity | done | cbn; by rewrite Hwx | lia].
  - destruct kvs as [|[k x] kvs]; [reflexivity |].
    cbn [encode]. rewrite !str_app_assoc. cbn [append].
    rewrite parse_value_brace, skip_ws_app_ws by apply newline_indent_ws.
    rewrite encode_basestring_app. change (Ascii.eqb quote "}") with false. cbv iota beta.
    rewrite <- encode_basestring_app.
    rewrite (parse_members_encode lvl k x kvs f rest); [reflexivity | done | done | lia].
Qed.

Lemma length_concat_map_str {A} (g : A -> string) (l : list A) :
  String.length (concat_map_str g l) = sum_list_with (fun x => String.length (g x)) l.
Proof. induction l as [|x l IH]; [done |]. cbn [concat_map_str sum_list_with]. by rewrite str_length_app, IH. Qed.

Lemma sum_list_with_le {A} (g h : A -> nat) (l : list A) :
  Forall (fun x => g x <= h x) l -> sum_list_with g l <= sum_list_with h l.
Proof. induction 1; cbn [sum_list_with]; lia. Qed.

Lemma length_newline_indent (n : nat) : 1 <= String.length (newline_indent n).
Proof. cbn. lia. Qed.

Lemma json_size_length (v : pyval) (lvl : nat) : json_size v <= S (String.length (encode lvl v)).
Proof.
  revert lvl. induction v as [| z | fl | s | l IHl | kvs IHkvs] using pyval_ind'; intros lvl;
    try (cbn [json_size]; lia).
  - destruct l as [|x xs]; [cbn; lia |]. cbn [encode json_size sum_list_with].
    rewrite !str_length_app, length_concat_map_str. cbn [String.length].
    apply Forall_cons in IHl as [Hx Hxs].
    pose proof (length_newline_indent (S lvl)). pose proof (Hx (S lvl)).
    enough (sum_list_with (fun y => S (json_size y)) xs <=
            sum_list_with (fun y => String.length ("," ++ newline_indent (S lvl) ++ encode (S lvl) y)) xs) by lia.
    apply sum_list_with_le. eapply Forall_impl; [exact Hxs |]. intros y Hy.
    cbn [String.length append]. rewrite str_length_app. specialize (Hy (S lvl)). lia.
  - destruct kvs as [|[k x] kvs]; [cbn; lia |]. cbn [encode json_size sum_list_with snd].
    rewrite !str_length_app, length_concat_map_str. cbn [String.length append].
    apply Forall_cons in IHkvs as [Hx Hkvs]. cbn [snd] in Hx.
    pose proof (length_newline_indent (S lvl)). pose proof (Hx (S lvl)).
    lazymatch goal with
    | |- _ <= S ?r => lazymatch r with context [sum_list_with ?g kvs] =>
        enough (sum_list_with (fun kv => S (json_size (snd kv))) kvs <= sum_list_with g kvs) by lia
      end
    end.
    apply sum_list_with_le. eapply Forall_impl; [exact Hkvs |]. intros [k' y] Hy. cbn [snd] in Hy.
    cbn [String.length append]. rewrite !str_length_app. specialize (Hy (S lvl)). cbn. lia.
Qed.

(** ** What the document contains *)

Lemma str_forallb_app (p : ascii -> bool) (a b : string) :
  str_forallb p (a ++ b) = str_forallb p a && str_forallb p b.
Proof.
  induction a as [|c a IH]; [done |]. unfold str_forallb in *. cbn [append list_ascii_of_string forallb].
  rewrite IH. by rewrite andb_assoc.
Qed.

Lemma str_forallb_cons (p : ascii -> bool) (c : ascii) (s : string) :
  str_forallb p (String c s) = p c && str_forallb p s.
Proof. done. Qed.

Lemma escape_char_plain (c : ascii) : plain_char c = true -> escape_char c = str1 c.
Proof.
  unfold plain_char, escape_char. rewrite !ascii_eqb_code. unfold quote, backslash.
  rewrite !nat_of_chr by lia. intros [[H1 H2]%andb_prop H3]%andb_prop.
  apply negb_true_iff in H1, H2, H3. apply Nat.ltb_ge in H1. apply Nat.eqb_neq in H2, H3.
  repeat match goal with |- context [Nat.eqb ?a ?b] => destruct (Nat.eqb_spec a b) end; try lia.
  by rewrite (proj2 (Nat.ltb_ge _ _) H1).
Qed.

Lemma escape_plain (s : string) : str_forallb plain_char s = true -> escape s = s.
Proof.
  induction s as [|c s IH]; [done |]. rewrite str_forallb_cons. intros [Hc Hs]%andb_prop.
  cbn [escape]. by rewrite escape_char_plain, IH.
Qed.

Lemma hex_digit_text (d : nat) : d < 16 -> text_char (hex_digit d) = true.
Proof.
  intros Hd. unfold text_char, hex_digit. apply orb_true_intro. left.
  apply negb_true_iff, Nat.ltb_ge. destruct (Nat.ltb_spec d 10); rewrite nat_of_chr; lia.
Qed.

Lemma escape_char_text (c : ascii) : str_forallb text_char (escape_char c) = true.
Proof.
  pose proof (nat_of_ascii_bound c) as Hb. rewrite <- (chr_nat c).
  set (n := nat_of_ascii c) in *. clearbody n. clear c. unfold escape_char.
  rewrite nat_of_chr by done.
  repeat match goal with |- context [Nat.eqb n ?b] => destruct (Nat.eqb_spec n b); [reflexivity |] end.
  destruct (Nat.ltb_spec n 32).
  - assert (n / 16 < 16) by (apply Nat.Div0.div_lt_upper_bound; lia).
    pose proof (Nat.mod_upper_bound n 16).
    unfold str1. cbn [append]. rewrite !str_forallb_cons, !hex_digit_text by lia. reflexivity.
  - unfold str1. rewrite str_forallb_cons. unfold text_char. rewrite nat_of_chr by done.
    by rewrite (proj2 (Nat.ltb_ge n 32)) by lia.
Qed.

Lemma str_forallb_concat_map {A} (p : ascii -> bool) (g : A -> string) (l : list A) :
  Forall (fun x => str_forallb p (g x) = true) l -> str_forallb p (concat_map_str g l) = true.
Proof. induction 1; [done |]. cbn [concat_map_str]. rewrite str_forallb_app. by apply andb_true_intro. Qed.

Lemma escape_text (s : string) : str_forallb text_char (escape s) = true.
Proof.
  induction s as [|c s IH]; [done |]. cbn [escape].
  by rewrite str_forallb_app, escape_char_text, IH.
Qed.

Lemma encode_basestring_text (s : string) : str_forallb text_char (encode_basestring s) = true.
Proof.
  unfold encode_basestring, str1. by rewrite str_forallb_cons, str_forallb_app, escape_text.
Qed.

Lemma indent_text (n : nat) : str_forallb text_char (indent n) = true.
Proof. induction n as [|n IH]; [done |]. cbn [indent]. by rewrite str_forallb_app, IH. Qed.

Lemma newline_indent_text (n : nat) : str_forallb text_char (newline_indent n) = true.
Proof. unfold newline_indent. by rewrite str_forallb_cons, indent_text. Qed.

Lemma num_char_text (c : ascii) : is_num_char c = true -> text_char c = true.
Proof.
  unfold is_num_char, text_char. intros H. apply orb_true_intro. left.
  apply negb_true_iff, Nat.ltb_ge.
  repeat (apply orb_prop in H as [H | H]);
    [apply andb_prop in H as [H _]; apply Nat.leb_le in H | apply Nat.eqb_eq in H ..]; lia.
Qed.

Create Rewrite HintDb json_text.
#[local] Hint Rewrite str_forallb_app str_forallb_cons encode_basestring_text
  newline_indent_text : json_text.

Lemma encode_text (lvl : nat) (v : pyval) :
  wf_val v = true -> str_forallb text_char (encode lvl v) = true.
Proof.
  revert lvl. induction v as [| z | fl | s | l IHl | kvs IHkvs] using pyval_ind';
    intros lvl Hwf; cbn [encode wf_val] in *.
  - done.
  - destruct (int_repr_chars z) as (_ & Hc & _). by eapply str_forallb_impl; [apply num_char_text |].
  - rewrite float_str_valid by done. unfold valid_float_repr in Hwf.
    apply andb_prop in Hwf as [[_ Hc]%andb_prop _]. by eapply str_forallb_impl; [apply num_char_text |].
  - apply encode_basestring_text.
  - destruct l as [|x xs]; [done |]. apply Forall_cons in IHl as [Hx Hxs].
    cbn [forallb] in Hwf. apply andb_prop in Hwf as [Hwx Hwf].
    autorewrite with json_text. rewrite Hx by done. rewrite str_forallb_concat_map; [reflexivity |].
    apply List.Forall_forall. intros y Hy. pose proof (proj1 (List.forallb_forall _ _) Hwf y Hy).
    autorewrite with json_text. by rewrite (proj1 (List.Forall_forall _ _) Hxs y Hy).
  - destruct kvs as [|[k x] kvs]; [done |]. apply Forall_cons in IHkvs as [Hx Hkvs].
    cbn [forallb snd] in Hwf, Hx. apply andb_prop in Hwf as [Hwx Hwf].
    autorewrite with json_text. rewrite Hx by done. rewrite str_forallb_concat_map; [reflexivity |].
    apply List.Forall_forall. intros [k' y] Hy. pose proof (proj1 (List.forallb_forall _ _) Hwf _ Hy).
    autorewrite with json_text. by rewrite (proj1 (List.Forall_forall _ _) Hkvs _ Hy).
Qed.

(** ** Properties of [json.dump] *)

(** C22 (round trip): the text [json.dump] writes for a value whose
    floats are finite is a JSON document that a JSON reader reads back
    as the same value: same keys in the same order, same strings, same
    numbers. *)
Theorem json_roundtrip (v : pyval) : wf_val v = true -> json_loads (json_dumps v) = Some v.
Proof.
  intros Hwf. unfold json_loads, json_dumps.
  pose proof (parse_value_encode v 0 (S (String.length (encode 0 v))) "" Hwf
    (json_size_length v 0) eq_refl) as H.
  rewrite str_app_nil_r in H. by rewrite H.
Qed.

(** C23 (safety): the only control character in the text [json.dump]
    writes is the line feed of the indentation; the control characters
    of the strings are written as escapes. *)
Theorem json_dumps_text (v : pyval) :
  wf_val v = true -> str_forallb text_char (json_dumps v) = true.
Proof. apply encode_text. Qed.

(** C24 (functional, [ensure_ascii=False]): a string with no control
    character, quote or backslash is written between quotes as it is;
    in particular the bytes of non-ASCII text are not escaped. *)
Theorem json_dumps_plain_str (s : string) :
  str_forallb plain_char s = true -> json_dumps (PStr s) = String quote (s ++ str1 quote).
Proof. intros H. cbn [json_dumps encode]. unfold encode_basestring. by rewrite escape_plain. Qed.

Module Samples.
(** ["解析"] in UTF-8. *)
Definition kaiseki : string :=
  String (chr 232) (String (chr 167) (String (chr 163)
    (String (chr 230) (String (chr 158) (String (chr 144) ""))))).

Definition tab_quote : string := String (chr 9) (String quote "x").

Definition sample_doc : pyval :=
  PDict [("content", PStr kaiseki);
         ("pages", PList [PDict [("page_number", PInt 1); ("width", PFloat (mk_float "800.0"));
                                 ("unit", PStr "pixel"); ("lines", PList [])]]);
         ("note", PStr tab_quote); ("missing", PNone); ("neg", PInt (-12)); ("e", PDict [])].
End Samples.

Lemma json_roundtrip_witness :
  wf_val Samples.sample_doc = true /\
  json_loads (json_dumps Samples.sample_doc) = Some Samples.sample_doc.
Proof. split; [reflexivity | apply json_roundtrip; reflexivity]. Defined.

Lemma json_dumps_text_witness :
  wf_val Samples.sample_doc = true /\ str_forallb text_char (json_dumps Samples.sample_doc) = true.
Proof. split; [reflexivity | apply json_dumps_text; reflexivity]. Defined.

Lemma json_dumps_plain_str_witness :
  str_forallb plain_char Samples.kaiseki = true /\
  json_dumps (PStr Samples.kaiseki) = String quote (Samples.kaiseki ++ str1 quote).
Proof. split; [reflexivity | apply json_dumps_plain_str; reflexivity]. Defined.

(** ** The chunks make up the text *)

Lemma join_app (a b : list string) : join (app a b) = join a ++ join b.
Proof. unfold join. induction a as [|c a IH]; [done |]. cbn [fold_right app]. by rewrite IH, str_app_assoc. Qed.

Lemma join_concat_map {A} (g : A -> list string) (l : list A) :
  join (concat_map_list g l) = concat_map_str (fun x => join (g x)) l.
Proof. induction l as [|x l IH]; [done |]. cbn [concat_map_list concat_map_str]. by rewrite join_app, IH. Qed.

Lemma concat_map_str_Forall {A} (g h : A -> string) (l : list A) :
  Forall (fun x => g x = h x) l -> concat_map_str g l = concat_map_str h l.
Proof. induction 1 as [|x l Hx _ IH]; [done |]. cbn [concat_map_str]. by rewrite Hx, IH. Qed.

Lemma encode_scalar (lvl : nat) (v : pyval) : is_container v = false -> encode lvl v = scalar_str v.
Proof. by destruct v. Qed.

Lemma iterencode_scalar (lvl : nat) (v : pyval) :
  is_container v = false -> iterencode lvl v = [scalar_str v].
Proof. by destruct v. Qed.

(** A list item: its separator, then the item's own chunks. *)
Lemma join_item (lvl : nat) (buf : string) (y : pyval) :
  join (if is_container y then buf :: iterencode lvl y else [buf ++ scalar_str y]) =
  buf ++ join (iterencode lvl y).
Proof.
  destruct (is_container y) eqn:E; [done |].
  rewrite iterencode_scalar by done. cbn. by rewrite !str_app_nil_r.
Qed.

(** The chunks of the generator of [_make_iterencode], joined, are the
    reference text, at every nesting level. *)
Theorem iterencode_join (lvl : nat) (v : pyval) : join (iterencode lvl v) = encode lvl v.
Proof.
  revert lvl. induction v as [| z | fl | s | l IHl | kvs IHkvs] using pyval_ind'; intros lvl;
    try (cbn [iterencode encode scalar_str join fold_right]; apply str_app_nil_r).
  - destruct l as [|x xs]; [done |]. apply Forall_cons in IHl as [Hx Hxs].
    cbn [iterencode encode]. rewrite !join_app, join_item, Hx, join_concat_map.
    erewrite concat_map_str_Forall.
    2: { eapply Forall_impl; [exact Hxs |]. intros y Hy. cbn beta.
         rewrite join_item, Hy. reflexivity. }
    cbn [join fold_right]. rewrite !str_app_assoc. reflexivity.
  - destruct kvs as [|[k x] kvs]; [done |]. apply Forall_cons in IHkvs as [Hx Hkvs].
    cbn [snd] in Hx. cbn [iterencode encode]. rewrite !join_app, Hx, join_concat_map.
    rewrite (concat_map_str_Forall _ (fun kv => let '(k', y) := kv in
      "," ++ newline_indent (S lvl) ++ encode_basestring k' ++ ": " ++ encode (S lvl) y)).
    2: { eapply Forall_impl; [exact Hkvs |]. intros [k' y] Hy. cbn [snd] in Hy. cbv beta iota.
         rewrite join_app, Hy. cbn [join fold_right]. by rewrite !str_app_assoc. }
    cbn [join fold_right]. rewrite !str_app_assoc. reflexivity.
Qed.
