(* ===== verification/Log.v ===== *)
(** The log document: what [json.dump] (line 95 of [src/main.py])
    writes for the [result_dict] of lines 63-88.  The dict is a JSON
    value whose floats are finite as soon as the floats of the analysis
    result are: the transform copies them and makes no new one.  Then
    the log text is read back as the dict (the round trip of [Json]). *)

From Stdlib Require Import String ZArith.
From stdpp Require Import base list.
From S2P Require Import Prelude Analysis Transform Json.

Local Open Scope string_scope.

(** ** Finite floats in the analysis result *)

Definition float_ok (f : pyfloat) : bool := valid_float_repr (float_repr f).

Definition opt_float_ok (o : option pyfloat) : bool := default true (float_ok <$> o).

(** A bare float makes the transform raise, so it needs no condition. *)
Definition poly_floats_ok (p : poly_elem) : bool :=
  match p with
  | PolyPoint x y => float_ok x && float_ok y
  | PolyFloat _ => true
  end.

Definition line_floats_ok (l : DocumentLine) : bool :=
  forallb poly_floats_ok (default [] (line_polygon l)).

Definition page_floats_ok (pg : DocumentPage) : bool :=
  opt_float_ok (page_width pg) && opt_float_ok (page_height pg) &&
  forallb line_floats_ok (default [] (page_lines pg)).

Definition result_floats_ok (r : AnalyzeResult) : bool :=
  forallb page_floats_ok (default [] (result_pages r)).

(** ** The dict is a well-formed JSON value *)

Lemma py_opt_float_wf (o : option pyfloat) : wf_val (py_opt PFloat o) = opt_float_ok o.
Proof. by destruct o. Qed.

Lemma py_opt_str_wf (o : option string) : wf_val (py_opt PStr o) = true.
Proof. by destruct o. Qed.

Lemma py_opt_int_wf (o : option Z) : wf_val (py_opt PInt o) = true.
Proof. by destruct o. Qed.

Lemma point_data_wf (p : poly_elem) (v : pyval) :
  point_data p = Ok v -> poly_floats_ok p = true -> wf_val v = true.
Proof.
  destruct p as [x y|]; cbn; [| discriminate]. intros [= <-]. unfold float_ok.
  intros H. cbn. by rewrite andb_true_r.
Qed.

Lemma line_data_wf (l : DocumentLine) (v : pyval) :
  line_data l = Ok v -> line_floats_ok l = true -> wf_val v = true.
Proof.
  unfold line_data, line_floats_ok. destruct (line_polygon l) as [pts|]; cbn; [| discriminate].
  destruct (mapR point_data pts) as [poly|] eqn:Hm; cbn; [| discriminate].
  intros [= <-] Hp. cbn [wf_val forallb snd]. rewrite py_opt_str_wf.
  by rewrite (mapR_forallb _ _ _ _ _ point_data_wf Hm Hp).
Qed.

Lemma page_data_wf (pg : DocumentPage) (v : pyval) :
  page_data pg = Ok v -> page_floats_ok pg = true -> wf_val v = true.
Proof.
  rewrite page_data_unfold. unfold page_floats_ok.
  destruct (mapR line_data _) as [ls|] eqn:Hm; cbn; [| discriminate].
  intros [= <-] [[Hw Hh]%andb_prop Hl]%andb_prop.
  cbn [wf_val forallb snd]. rewrite py_opt_int_wf, py_opt_str_wf, !py_opt_float_wf, Hw, Hh.
  by rewrite (mapR_forallb _ _ _ _ _ line_data_wf Hm Hl).
Qed.

(** The transform keeps floats finite. *)
Lemma result_dict_wf (r : AnalyzeResult) (v : pyval) :
  result_dict r = Ok v -> result_floats_ok r = true -> wf_val v = true.
Proof.
  rewrite result_dict_unfold. unfold result_floats_ok.
  destruct (result_pages r) as [pgs|]; cbn; [| discriminate].
  destruct (mapR page_data pgs) as [ds|] eqn:Hm; cbn; [| discriminate].
  intros [= <-] Hp. cbn [wf_val forallb snd]. rewrite py_opt_str_wf.
  by rewrite (mapR_forallb _ _ _ _ _ page_data_wf Hm Hp).
Qed.

(** The text [json.dump] writes reads back, as a lemma the run
    theorems share. *)
Lemma log_text_loads (v : pyval) : wf_val v = true -> json_loads (json_dumps v) = Some v.
Proof.
  intros Hwf. unfold json_loads, json_dumps.
  pose proof (parse_value_encode v 0 (S (String.length (encode 0 v))) "" Hwf
    (json_size_length v 0) eq_refl) as H.
  rewrite str_app_nil_r in H. by rewrite H.
Qed.
