(* ===== verification/Schema.v ===== *)
(** The shape of the log document, as a type.  Spec sections 3-4 give
    the schema of the dict [result_dict] (lines 63-88 of
    [src/main.py]): an object [{content, pages}] whose pages are objects
    [{page_number, width, height, unit, lines}] and so on.  [schema]
    is a small type language for JSON-like values, [has_schema] its
    typing judgment (written [v ⊨ s]), and [conforms] the executable
    checker, proved to decide it.  The transform's output has the
    schema in which every copied attribute is nullable: the code copies
    [None] as [null]. *)

From Stdlib Require Import String ZArith Bool.
From stdpp Require Import base list.
From S2P Require Import Prelude Analysis Transform.

Local Open Scope string_scope.

(** ** Schemas and the typing judgment *)

Inductive schema :=
  | SNull
  | SInt
  | SFloat
  | SStr
  | SNullable (s : schema)
  | SList (s : schema)
  | SObject (fields : list (string * schema)).

(** An object has exactly the listed keys, in that order. *)
Inductive has_schema : pyval -> schema -> Prop :=
  | hs_null : has_schema PNone SNull
  | hs_int z : has_schema (PInt z) SInt
  | hs_float f : has_schema (PFloat f) SFloat
  | hs_str s : has_schema (PStr s) SStr
  | hs_none s : has_schema PNone (SNullable s)
  | hs_some v s : has_schema v s -> has_schema v (SNullable s)
  | hs_list l s : Forall (fun v => has_schema v s) l -> has_schema (PList l) (SList s)
  | hs_object kvs fs :
      Forall2 (fun kv f => fst kv = fst f /\ has_schema (snd kv) (snd f)) kvs fs ->
      has_schema (PDict kvs) (SObject fs).

Notation "v ⊨ s" := (has_schema v s) (at level 70) : py_scope.
Local Open Scope py_scope.

(** [all2 p l1 l2]: same length and [p] holds pairwise. *)
Fixpoint all2 {A B} (p : A -> B -> bool) (l1 : list A) (l2 : list B) : bool :=
  match l1, l2 with
  | [], [] => true
  | x :: l1', y :: l2' => p x y && all2 p l1' l2'
  | _, _ => false
  end.

Fixpoint conforms (s : schema) (v : pyval) {struct s} : bool :=
  match s, v with
  | SNull, PNone | SInt, PInt _ | SFloat, PFloat _ | SStr, PStr _ => true
  | SNullable _, PNone => true
  | SNullable s', _ => conforms s' v
  | SList s', PList l => forallb (conforms s') l
  | SObject fs, PDict kvs =>
      all2 (fun f kv => let '(n, s') := f in let '(k, x) := kv in
                        String.eqb k n && conforms s' x) fs kvs
  | _, _ => false
  end.

(** ** The log's schema *)

Definition point_schema : schema := SObject [("x", SFloat); ("y", SFloat)].

Definition line_schema : schema :=
  SObject [("content", SNullable SStr); ("bounding_polygon", SList point_schema)].

Definition page_schema : schema :=
  SObject [("page_number", SNullable SInt); ("width", SNullable SFloat);
           ("height", SNullable SFloat); ("unit", SNullable SStr);
           ("lines", SList line_schema)].

Definition log_schema : schema :=
  SObject [("content", SNullable SStr); ("pages", SList page_schema)].

(** ** [conforms] decides [has_schema] *)

(** Induction on [schema] through the fields of an object. *)
Section SchemaInd.
Context (P : schema -> Prop).
Hypothesis HNull : P SNull.
Hypothesis HInt : P SInt.
Hypothesis HFloat : P SFloat.
Hypothesis HStr : P SStr.
Hypothesis HNullable : forall s, P s -> P (SNullable s).
Hypothesis HList : forall s, P s -> P (SList s).
Hypothesis HObject : forall fs, Forall (fun f => P (snd f)) fs -> P (SObject fs).

Fixpoint schema_ind' (s : schema) : P s :=
  match s with
  | SNull => HNull
  | SInt => HInt
  | SFloat => HFloat
  | SStr => HStr
  | SNullable s' => HNullable s' (schema_ind' s')
  | SList s' => HList s' (schema_ind' s')
  | SObject fs =>
      HObject fs ((fix go (l : list (string * schema)) : Forall (fun f => P (snd f)) l :=
                    match l with
                    | [] => @List.Forall_nil _ (fun f => P (snd f))
                    | (n, s') :: l' =>
                        @List.Forall_cons _ (fun f => P (snd f)) (n, s') l' (schema_ind' s') (go l')
                    end) fs)
  end.
End SchemaInd.

Lemma conforms_object (fs : list (string * schema)) (kvs : list (string * pyval)) :
  Forall (fun f => forall v, conforms (snd f) v = true <-> v ⊨ snd f) fs ->
  all2 (fun f kv => let '(n, s') := f in let '(k, x) := kv in
                    String.eqb k n && conforms s' x) fs kvs = true <->
  Forall2 (fun kv f => fst kv = fst f /\ snd kv ⊨ snd f) kvs fs.
Proof.
  intros Hfs. revert kvs. induction Hfs as [|[n s'] fs Hf _ IH]; intros [|[k x] kvs]; cbn [all2].
  - split; [constructor | done].
  - split; [done | inversion 1].
  - split; [done | inversion 1].
  - rewrite andb_true_iff, andb_true_iff, String.eqb_eq, IH, Hf. cbn [fst snd].
    split; [intros [[-> ?] ?]; by constructor |].
    inversion 1; subst; naive_solver.
Qed.

(** [conforms] is the checker of the judgment. *)
Lemma conforms_spec (s : schema) : forall v, conforms s v = true <-> v ⊨ s.
Proof.
  induction s as [| | | | s IH | s IH | fs IH] using schema_ind'; intros v;
    try (destruct v; split; intros H; try discriminate; try constructor; inversion H; done).
  - destruct v; cbn [conforms]; try (split; [constructor | done]);
      (rewrite IH; split; [by constructor | inversion 1; auto]).
  - destruct v as [| | | |l|]; cbn [conforms]; try (split; [done | inversion 1]).
    rewrite forallb_forall. split.
    + intros H. constructor. apply List.Forall_forall. intros x Hx. by apply IH, H.
    + inversion 1 as [| | | | | |? ? Hl|]; subst. intros x Hx. apply IH.
      by apply (proj1 (List.Forall_forall _ _) Hl).
  - destruct v as [| | | | |kvs]; cbn [conforms]; try (split; [done | inversion 1]).
    rewrite conforms_object by done. split; [by constructor | inversion 1; done].
Qed.

(** ** The transform's output has the log's schema *)

Lemma mapR_conforms {A} (f : A -> res pyval) (s : schema) (xs : list A) (ys : list pyval) :
  (forall x y, f x = Ok y -> conforms s y = true) ->
  mapR f xs = Ok ys -> forallb (conforms s) ys = true.
Proof.
  intros Hf Hm. apply (mapR_forallb f (fun _ => true) _ xs ys); [naive_solver | done |].
  by apply forallb_forall.
Qed.

Lemma py_opt_conforms {A} (c : A -> pyval) (s : schema) (o : option A) :
  (forall a, conforms s (c a) = true) -> conforms (SNullable s) (py_opt c o) = true.
Proof. intros H. destruct o as [a|]; [| done]. cbn. specialize (H a). by destruct (c a). Qed.

Lemma conforms_object_cons (n : string) (s : schema) (fs : list (string * schema))
    (x : pyval) (kvs : list (string * pyval)) :
  conforms (SObject ((n, s) :: fs)) (PDict ((n, x) :: kvs)) =
  conforms s x && conforms (SObject fs) (PDict kvs).
Proof. cbn. by rewrite String.eqb_refl. Qed.

Lemma conforms_object_nil : conforms (SObject []) (PDict []) = true.
Proof. reflexivity. Qed.

Lemma conforms_list (s : schema) (l : list pyval) :
  conforms (SList s) (PList l) = forallb (conforms s) l.
Proof. reflexivity. Qed.

Lemma py_opt_str_conforms (o : option string) : conforms (SNullable SStr) (py_opt PStr o) = true.
Proof. by apply py_opt_conforms. Qed.

Lemma py_opt_int_conforms (o : option Z) : conforms (SNullable SInt) (py_opt PInt o) = true.
Proof. by apply py_opt_conforms. Qed.

Lemma py_opt_float_conforms (o : option pyfloat) :
  conforms (SNullable SFloat) (py_opt PFloat o) = true.
Proof. by apply py_opt_conforms. Qed.

Create Rewrite HintDb schema_rw.
#[export] Hint Rewrite conforms_object_cons conforms_list py_opt_str_conforms py_opt_int_conforms
  py_opt_float_conforms andb_true_r : schema_rw.

Lemma point_data_conforms (p : poly_elem) (v : pyval) :
  point_data p = Ok v -> conforms point_schema v = true.
Proof. destruct p; cbn; [by intros [= <-] | discriminate]. Qed.

Lemma line_data_conforms (l : DocumentLine) (v : pyval) :
  line_data l = Ok v -> conforms line_schema v = true.
Proof.
  unfold line_data. destruct (line_polygon l) as [pts|]; cbn [py_iter res_bind]; [| discriminate].
  destruct (mapR point_data pts) as [poly|] eqn:Hm; cbn [res_bind]; [| discriminate].
  intros [= <-]. unfold line_schema. autorewrite with schema_rw.
  by rewrite (mapR_conforms _ _ _ _ point_data_conforms Hm).
Qed.

Lemma page_data_conforms (pg : DocumentPage) (v : pyval) :
  page_data pg = Ok v -> conforms page_schema v = true.
Proof.
  rewrite page_data_unfold. destruct (mapR line_data _) as [ls|] eqn:Hm; cbn [res_bind]; [| discriminate].
  intros [= <-]. unfold page_schema. autorewrite with schema_rw.
  by rewrite (mapR_conforms _ _ _ _ line_data_conforms Hm).
Qed.

Lemma result_dict_conforms (r : AnalyzeResult) (v : pyval) :
  result_dict r = Ok v -> conforms log_schema v = true.
Proof.
  rewrite result_dict_unfold. destruct (result_pages r) as [pgs|]; cbn [py_iter res_bind]; [| discriminate].
  destruct (mapR page_data pgs) as [ds|] eqn:Hm; cbn [res_bind]; [| discriminate].
  intros [= <-]. unfold log_schema. autorewrite with schema_rw.
  by rewrite (mapR_conforms _ _ _ _ page_data_conforms Hm).
Qed.

(** C26 (type).  Whenever the transform succeeds, the dict it returns
    has the log's schema: an object with the keys [content] and [pages]
    in that order, each page an object with [page_number], [width],
    [height], [unit] and [lines], each line an object with [content]
    and [bounding_polygon], each point an object [{x, y}] of floats.
    The copied attributes may be [null]; the lists never are. *)
Theorem result_dict_schema (r : AnalyzeResult) (v : pyval) :
  result_dict r = Ok v -> v ⊨ log_schema.
Proof. intros H. by apply conforms_spec, (result_dict_conforms r). Qed.

Lemma result_dict_schema_witness :
  result_dict Examples.scenario = Ok Examples.scenario_log /\ Examples.scenario_log ⊨ log_schema.
Proof. split; [reflexivity | by apply (result_dict_schema Examples.scenario)]. Defined.
