(* ===== verification/World.v ===== *)
(** The world the script runs in, and the library calls it makes
    ([os], [open], [datetime.now], the client of
    [azure-ai-documentintelligence], [json.dump]).  The state is a
    record of the environment, the file system (a [gmap] from paths to
    files and directories), the clock, the analysis service (an oracle
    from the request to its outcome) and the trace of observable
    events.  Each library call is an operation of the state-and-exception
    monad [M] over this world, with the exceptions the call raises. *)

From Stdlib Require Import String Ascii ZArith.
From stdpp Require Import base list gmap strings.
From S2P Require Import Prelude Timestamp Analysis Json.

Local Open Scope py_scope.
Local Open Scope string_scope.

(** ** The world *)

(** File contents: the bytes of the file (text files are UTF-8). *)
Inductive file_data :=
  | Raw (bytes : string).

Inductive fs_entry :=
  | RegFile (d : file_data)
  | Directory.

(** What the service does with one request: the request itself fails
    ([begin_analyze_document] raises), the long-running analysis fails
    ([poller.result()] raises), or it returns a result. *)
Inductive svc_result :=
  | BeginFailed (e : service_error)
  | PollFailed (e : service_error)
  | Succeeded (r : AnalyzeResult).

(** Observable effects, in the order they happen. *)
Inductive event :=
  | EvClientCreated (endpoint key : string)
  | EvMakedirs (path : string)
  | EvOpen (path mode : string)
  | EvClose (path : string)
  | EvRequest (model_id : string) (body : file_data)
  | EvPrint (line : string).

Record world := mk_world {
  w_env : gmap string string;
  w_fs : gmap string fs_entry;
  w_now : datetime;
  (** the service's answer to (endpoint, key, model id, body) *)
  w_service : string -> string -> string -> file_data -> svc_result;
  w_trace : list event
}.

Abbreviation M := (stexc world).

Definition set_fs (f : gmap string fs_entry -> gmap string fs_entry) (w : world) : world :=
  mk_world (w_env w) (f (w_fs w)) (w_now w) (w_service w) (w_trace w).

Definition add_event (ev : event) (w : world) : world :=
  mk_world (w_env w) (w_fs w) (w_now w) (w_service w) (w_trace w ++ [ev]).

Definition emit (ev : event) : M unit := st_modify (add_event ev).

(** ** Library calls the script makes *)

(** [os.getenv(k)]. *)
Definition getenv (k : string) : M (option string) :=
  fun w => (Ok (w_env w !! k), w).

(** [os.path.exists(p)]: a file or a directory. *)
Definition path_exists (p : string) : M bool :=
  fun w => (Ok (bool_decide (is_Some (w_fs w !! p))), w).

(** [os.makedirs(p, exist_ok=True)] for a one-component [p]: nothing if
    the directory exists, [FileExistsError] if a file has its name. *)
Definition makedirs_exist_ok (p : string) : M unit :=
  fun w => match w_fs w !! p with
           | Some Directory => (Ok tt, w)
           | Some (RegFile _) => (Err (FileExistsError p), w)
           | None => (Ok tt, add_event (EvMakedirs p) (set_fs (<[p := Directory]>) w))
           end.

(** [datetime.now()]. *)
Definition now : M datetime := fun w => (Ok (w_now w), w).

(** [posixpath.dirname]: everything before the last ["/"], trailing
    slashes removed unless the head is only slashes. *)
Fixpoint rfind_slash (s : string) (i : nat) (last : option nat) : option nat :=
  match s with
  | "" => last
  | String c s' => rfind_slash s' (S i) (if Ascii.eqb c "/" then Some i else last)
  end.

Fixpoint rstrip_slash (s : string) : string :=
  match s with
  | "" => ""
  | String c s' =>
      let r := rstrip_slash s' in
      if String.eqb r "" && Ascii.eqb c "/" then "" else String c r
  end.

Definition dirname (p : string) : string :=
  match rfind_slash p 0 None with
  | None => ""
  | Some i =>
      let head := substring 0 (S i) p in
      if String.eqb (rstrip_slash head) "" then head else rstrip_slash head
  end.

(** The [strerror] of [ENOENT], the message of a [FileNotFoundError]
    that [open] raises. *)
Definition ENOENT : string := "No such file or directory".

(** [open(p, "rb")]: the bytes of a regular file. *)
Definition open_rb (p : string) : M file_data :=
  fun w => match w_fs w !! p with
           | Some (RegFile d) => (Ok d, add_event (EvOpen p "rb") w)
           | Some Directory => (Err (IsADirectoryError p), w)
           | None => (Err (FileNotFoundError ENOENT (Some p)), w)
           end.

(** [open(p, "w")]: the parent must be a directory; the file is created
    or truncated. *)
Definition open_w (p : string) : M unit :=
  fun w =>
    let parent := dirname p in
    match (if String.eqb parent "" then Some Directory else w_fs w !! parent) with
    | None => (Err (FileNotFoundError ENOENT (Some p)), w)
    | Some (RegFile _) => (Err (NotADirectoryError p), w)
    | Some Directory =>
        match w_fs w !! p with
        | Some Directory => (Err (IsADirectoryError p), w)
        | _ => (Ok tt, add_event (EvOpen p "w") (set_fs (<[p := RegFile (Raw "")]>) w))
        end
    end.

(** The end of a [with open(...)] block. *)
Definition close (p : string) : M unit := emit (EvClose p).

(** The text of the regular file [p] (empty if there is none). *)
Definition file_text (w : world) (p : string) : string :=
  match w_fs w !! p with
  | Some (RegFile (Raw d)) => d
  | _ => ""
  end.

(** [f.write(s)] on the handle [open(p, "w")] returned: the text goes
    at the end of the file. *)
Definition file_write (p s : string) : M unit :=
  st_modify (fun w => set_fs (<[p := RegFile (Raw (file_text w p ++ s))]>) w).

(** [json.dump(v, f, ensure_ascii=False, indent=2)]: [for chunk in
    iterable: fp.write(chunk)] over the chunks of [_make_iterencode]
    ([Json.iterencode]). *)
Definition json_dump (v : pyval) (p : string) : M unit :=
  st_for_each (file_write p) (iterencode 0 v).

(** The client of lines 24-27. *)
Record client := mk_client { endpoint : string; credential : string }.

(** [client.begin_analyze_document(model_id=..., body=f)]: the request
    goes out with the file's bytes; the returned poller is the
    service's eventual answer. *)
Definition begin_analyze_document (c : client) (model_id : string) (body : file_data)
  : M svc_result :=
  fun w =>
    let w' := add_event (EvRequest model_id body) w in
    match w_service w (endpoint c) (credential c) model_id body with
    | BeginFailed e => (Err (AzureError e), w')
    | s => (Ok s, w')
    end.

(** [poller.result()]. *)
Definition poller_result (s : svc_result) : M AnalyzeResult :=
  match s with
  | Succeeded r => st_ret r
  | BeginFailed e | PollFailed e => st_raise (AzureError e)
  end.

(** ** Lemmas on the library calls *)

(** [dirname] of the log path: the stamp and the suffix hold no ["/"]. *)
Definition no_slash (s : string) : bool :=
  forallb (fun c => negb (Ascii.eqb c "/")) (list_ascii_of_string s).

Lemma rfind_slash_app (a b : string) (i : nat) (last : option nat) :
  rfind_slash (a ++ b) i last = rfind_slash b (i + String.length a) (rfind_slash a i last).
Proof.
  revert i last. induction a as [|c a IH]; intros i last; simpl.
  - by rewrite Nat.add_0_r.
  - rewrite IH. by replace (i + S (String.length a)) with (S i + String.length a) by lia.
Qed.

Lemma rfind_slash_none (s : string) (i : nat) (last : option nat) :
  no_slash s = true -> rfind_slash s i last = last.
Proof.
  revert i last. induction s as [|c s IH]; intros i last; simpl; [done |].
  intros [Hc Hs]%andb_prop. destruct (Ascii.eqb c "/"); [done |]. by apply IH.
Qed.

Lemma no_slash_app (a b : string) : no_slash (a ++ b) = no_slash a && no_slash b.
Proof.
  induction a as [|c a IH]; simpl; [done |]. unfold no_slash in *. simpl.
  by rewrite IH, andb_assoc.
Qed.

Lemma no_slash_zpad (w : nat) (n : Z) : no_slash (zpad w n) = true.
Proof.
  revert n. induction w as [|w IH]; intros n; simpl; [done |].
  rewrite no_slash_app, IH. unfold no_slash. simpl.
  destruct (Ascii.eqb_spec (digit_char (n mod 10)) "/") as [Heq|]; [| done].
  apply (f_equal N_of_ascii) in Heq. unfold digit_char in Heq.
  rewrite N_ascii_embedding in Heq; [simpl in Heq; lia |].
  pose proof (Z.mod_pos_bound n 10). lia.
Qed.

Lemma dirname_log_file_path (t : datetime) : dirname (log_file_path t) = LOG_DIR.
Proof.
  rewrite log_file_path_eq. unfold dirname.
  change ("logs/analyze_result_" ++ strftime_stamp t ++ ".json")
    with ("logs/" ++ ("analyze_result_" ++ strftime_stamp t ++ ".json")).
  rewrite rfind_slash_app, rfind_slash_none; [reflexivity |].
  unfold strftime_stamp. rewrite !no_slash_app, !no_slash_zpad. reflexivity.
Qed.

(** [fp.write] of each chunk in turn appends their concatenation. *)
Lemma file_write_chunks (p : string) (cs : list string) (w : world) (d : string) :
  w_fs w !! p = Some (RegFile (Raw d)) ->
  st_for_each (file_write p) cs w = (Ok tt, set_fs (<[p := RegFile (Raw (d ++ join cs))]>) w).
Proof.
  revert w d. induction cs as [|c cs IH]; intros w d H.
  - cbn. unfold set_fs. rewrite str_app_nil_r, insert_id by done. by destruct w.
  - cbn [st_for_each]. unfold st_bind at 1.
    assert (file_text w p = d) as Ht by (unfold file_text; by rewrite H).
    unfold file_write at 1, st_modify. rewrite Ht.
    rewrite (IH _ (d ++ c)) by (cbn; by simplify_map_eq).
    unfold set_fs. cbn [w_env w_fs w_now w_service w_trace]. rewrite insert_insert_eq.
    cbn [join fold_right]. by rewrite str_app_assoc.
Qed.

Lemma json_dump_run (v : pyval) (p : string) (w : world) (d : string) :
  w_fs w !! p = Some (RegFile (Raw d)) ->
  json_dump v p w = (Ok tt, set_fs (<[p := RegFile (Raw (d ++ json_dumps v))]>) w).
Proof. intros H. unfold json_dump. by rewrite (file_write_chunks _ _ _ d), iterencode_join. Qed.
