(* ===== verification/Script.v ===== *)
(** The whole script [src/main.py] as a program of the [stexc] monad
    over the [world] of [World].  Each statement of the script is one
    definition, and [main] runs them in the order of the source.  The
    theorems say which failure stops the run before which effect, and
    what a successful run writes.  They show that every opened file is
    closed, that no other path changes, and that the script refines the
    outcome taxonomy of spec section 7. *)

From Stdlib Require Import String Ascii ZArith.
From stdpp Require Import base list gmap strings.
From S2P Require Import Prelude Timestamp Analysis Transform Json Log World.

Local Open Scope py_scope.
Local Open Scope string_scope.

(** ** The script, statement by statement *)

Definition ENDPOINT_VAR : string := "DOCUMENT_INTELLIGENCE_ENDPOINT".
Definition KEY_VAR : string := "DOCUMENT_INTELLIGENCE_KEY".
Definition INPUT_FILE_PATH : string := "sample.jpg".
Definition MODEL_ID : string := "prebuilt-layout".

(** The messages of lines 17 and 35 (UTF-8 bytes). *)
Definition CONFIG_ERROR_MSG : string :=
  "環境変数 DOCUMENT_INTELLIGENCE_ENDPOINT または DOCUMENT_INTELLIGENCE_KEY が設定されていません。".
Definition INPUT_ERROR_MSG : string := "入力ファイルが存在しません: " ++ INPUT_FILE_PATH.

(** Lines 12-18.  [not ENDPOINT or not KEY]: an unset or empty variable
    raises [RuntimeError]. *)
Definition load_config : M (string * string) :=
  let! ENDPOINT := getenv ENDPOINT_VAR in
  let! KEY := getenv KEY_VAR in
  if negb (py_truthy_str ENDPOINT) || negb (py_truthy_str KEY)
  then st_raise (RuntimeError CONFIG_ERROR_MSG)
  else st_ret (default "" ENDPOINT, default "" KEY).

(** Lines 24-27: the client is built; no request is sent. *)
Definition make_client (ENDPOINT KEY : string) : M client :=
  emit (EvClientCreated ENDPOINT KEY) ;;! st_ret (mk_client ENDPOINT KEY).

(** Lines 33-35. *)
Definition check_input : M unit :=
  let! ex := path_exists INPUT_FILE_PATH in
  if ex then st_ret tt else st_raise (FileNotFoundError INPUT_ERROR_MSG None).

(** Lines 41-45: the log directory, then the path from the clock. *)
Definition prepare_log : M string :=
  makedirs_exist_ok LOG_DIR ;;!
  let! t := now in
  st_ret (log_file_path t).

(** Lines 51-57: the input is open only around the request; the
    [with] block closes it whether or not the request raised. *)
Definition analyze (c : client) : M AnalyzeResult :=
  let! f := open_rb INPUT_FILE_PATH in
  let! poller := st_finally (begin_analyze_document c MODEL_ID f) (close INPUT_FILE_PATH) in
  poller_result poller.

(** Lines 94-95. *)
Definition write_log (p : string) (v : pyval) : M unit :=
  open_w p ;;! st_finally (json_dump v p) (close p).

(** Line 98: [print(f"解析完了。ログ出力先: {LOG_FILE_PATH}")], the line
    written to standard output with its line feed (UTF-8 bytes). *)
Definition done_message (LOG_FILE_PATH : string) : string :=
  "解析完了。ログ出力先: " ++ LOG_FILE_PATH ++ String newline "".

(** Lines 63-98: transform the result, dump it, print the path. *)
Definition report (LOG_FILE_PATH : string) (result : AnalyzeResult) : M unit :=
  let! result_dict := st_lift (result_dict result) in
  write_log LOG_FILE_PATH result_dict ;;!
  emit (EvPrint (done_message LOG_FILE_PATH)).

(** The whole script. *)
Definition main : M unit :=
  let! cfg := load_config in
  let! c := make_client (fst cfg) (snd cfg) in
  check_input ;;!
  let! LOG_FILE_PATH := prepare_log in
  let! result := analyze c in
  report LOG_FILE_PATH result.

(** ** Preconditions of the runs *)

(** Both variables are set and non-empty, with values [e] and [k]. *)
Definition config_set (w : world) (e k : string) : Prop :=
  w_env w !! ENDPOINT_VAR = Some e /\ e <> "" /\ w_env w !! KEY_VAR = Some k /\ k <> "".

(** [logs] is absent or already a directory. *)
Definition logs_ready (w : world) : Prop :=
  w_fs w !! LOG_DIR = None \/ w_fs w !! LOG_DIR = Some Directory.

(** The world after [os.makedirs("logs", exist_ok=True)] succeeded. *)
Definition mkdir_logs (w : world) : world :=
  match w_fs w !! LOG_DIR with
  | None => add_event (EvMakedirs LOG_DIR) (set_fs (<[LOG_DIR := Directory]>) w)
  | Some _ => w
  end.

(** What [analyze] returns for the service's answer. *)
Definition analysis_outcome (s : svc_result) : res AnalyzeResult :=
  match s with
  | Succeeded r => Ok r
  | BeginFailed e | PollFailed e => Err (AzureError e)
  end.

(** ** Statement lemmas *)

(** The configuration check and the input check only read the world. *)
Lemma load_config_world (w : world) : snd (load_config w) = w.
Proof. unfold load_config, st_bind, getenv. simpl. by repeat case_match. Qed.

Lemma check_input_world (w : world) : snd (check_input w) = w.
Proof. unfold check_input, st_bind, path_exists. simpl. by repeat case_match. Qed.

Lemma load_config_run (w : world) (e k : string) :
  config_set w e k -> load_config w = (Ok (e, k), w).
Proof.
  intros (He & Hne & Hk & Hnk). unfold load_config, st_bind, getenv.
  rewrite He, Hk. unfold py_truthy_str.
  rewrite (proj2 (String.eqb_neq _ _) Hne), (proj2 (String.eqb_neq _ _) Hnk). done.
Qed.

Lemma load_config_fail (w : world) :
  py_truthy_str (w_env w !! ENDPOINT_VAR) = false \/ py_truthy_str (w_env w !! KEY_VAR) = false ->
  load_config w = (Err (RuntimeError CONFIG_ERROR_MSG), w).
Proof.
  unfold load_config, st_bind, getenv. simpl.
  intros [-> | ->]; [done | by rewrite orb_true_r].
Qed.

Lemma make_client_run (w : world) (e k : string) :
  make_client e k w = (Ok (mk_client e k), add_event (EvClientCreated e k) w).
Proof. reflexivity. Qed.

Lemma check_input_run (w : world) :
  is_Some (w_fs w !! INPUT_FILE_PATH) -> check_input w = (Ok tt, w).
Proof.
  intros Hs. unfold check_input, st_bind, path_exists.
  by rewrite bool_decide_eq_true_2.
Qed.

Lemma check_input_fail (w : world) :
  w_fs w !! INPUT_FILE_PATH = None ->
  check_input w = (Err (FileNotFoundError INPUT_ERROR_MSG None), w).
Proof. intros Hn. unfold check_input, st_bind, path_exists. by rewrite Hn. Qed.

Lemma prepare_log_run (w : world) :
  logs_ready w -> prepare_log w = (Ok (log_file_path (w_now w)), mkdir_logs w).
Proof.
  unfold prepare_log, st_bind, makedirs_exist_ok, mkdir_logs.
  intros [-> | ->]; reflexivity.
Qed.

Lemma analyze_run (c : client) (w : world) (data : file_data) :
  w_fs w !! INPUT_FILE_PATH = Some (RegFile data) ->
  analyze c w =
    (analysis_outcome (w_service w (endpoint c) (credential c) MODEL_ID data),
     add_event (EvClose INPUT_FILE_PATH)
       (add_event (EvRequest MODEL_ID data) (add_event (EvOpen INPUT_FILE_PATH "rb") w))).
Proof.
  intros Hin. unfold analyze, st_bind at 1, open_rb. rewrite Hin.
  unfold st_bind, st_finally, begin_analyze_document. simpl.
  by destruct (w_service w _ _ _ _).
Qed.

Lemma write_log_run (p : string) (v : pyval) (w : world) :
  dirname p = LOG_DIR -> w_fs w !! LOG_DIR = Some Directory -> w_fs w !! p <> Some Directory ->
  write_log p v w =
    (Ok tt, add_event (EvClose p)
              (set_fs (<[p := RegFile (Raw (json_dumps v))]>)
                 (add_event (EvOpen p "w") (set_fs (<[p := RegFile (Raw "")]>) w)))).
Proof.
  intros Hd Hl Hp. unfold write_log, st_bind at 1, open_w. rewrite Hd, Hl. simpl.
  destruct (w_fs w !! p) as [[]|] eqn:E; try congruence;
    (unfold st_finally; rewrite (json_dump_run v p _ "") by (cbn; by simplify_map_eq); reflexivity).
Qed.

(** The directory events of [os.makedirs("logs", exist_ok=True)]. *)
Definition makedirs_events (w : world) : list event :=
  match w_fs w !! LOG_DIR with None => [EvMakedirs LOG_DIR] | Some _ => [] end.

Lemma mkdir_logs_eq (w : world) :
  logs_ready w ->
  mkdir_logs w = mk_world (w_env w) (<[LOG_DIR := Directory]> (w_fs w)) (w_now w)
                          (w_service w) (w_trace w ++ makedirs_events w).
Proof.
  unfold mkdir_logs, makedirs_events. intros [-> | Hd]; [reflexivity |].
  rewrite Hd, insert_id, app_nil_r by done. by destruct w.
Qed.

(** Up to the analysis call, a run with the configuration, the input
    and the log directory in place does not branch. *)
Lemma main_reaches_analysis (w : world) (e k : string) :
  config_set w e k -> is_Some (w_fs w !! INPUT_FILE_PATH) -> logs_ready w ->
  main w = st_bind (analyze (mk_client e k)) (report (log_file_path (w_now w)))
                   (mkdir_logs (add_event (EvClientCreated e k) w)).
Proof.
  intros Hc Hin Hl. unfold main.
  rewrite (st_bind_Ok _ _ _ _ _ (load_config_run w e k Hc)). simpl fst. simpl snd.
  rewrite (st_bind_Ok _ _ _ _ _ (make_client_run w e k)). cbv beta.
  rewrite (st_bind_Ok _ _ _ _ _ (check_input_run (add_event (EvClientCreated e k) w) Hin)).
  rewrite (st_bind_Ok _ _ _ _ _ (prepare_log_run (add_event (EvClientCreated e k) w) Hl)).
  done.
Qed.

(** The world just after the [with] block of lines 51-55. *)
Definition after_request (w : world) (e k : string) (data : file_data) : world :=
  mk_world (w_env w) (<[LOG_DIR := Directory]> (w_fs w)) (w_now w) (w_service w)
    (w_trace w ++ [EvClientCreated e k] ++ makedirs_events w ++
     [EvOpen INPUT_FILE_PATH "rb"; EvRequest MODEL_ID data; EvClose INPUT_FILE_PATH]).

Lemma main_after_request (w : world) (e k : string) (data : file_data) :
  config_set w e k -> w_fs w !! INPUT_FILE_PATH = Some (RegFile data) -> logs_ready w ->
  main w = match analysis_outcome (w_service w e k MODEL_ID data) with
           | Ok r => report (log_file_path (w_now w)) r (after_request w e k data)
           | Err ex => (Err ex, after_request w e k data)
           end.
Proof.
  intros Hc Hin Hl. rewrite (main_reaches_analysis w e k Hc) by (try rewrite Hin; eauto).
  rewrite mkdir_logs_eq by done. unfold st_bind at 1.
  rewrite (analyze_run _ _ data) by (simpl; by rewrite lookup_insert_ne).
  unfold after_request, makedirs_events, add_event. simpl.
  by rewrite <- !app_assoc.
Qed.

Lemma report_run (p : string) (r : AnalyzeResult) (v : pyval) (w : world) :
  result_dict r = Ok v -> dirname p = LOG_DIR ->
  w_fs w !! LOG_DIR = Some Directory -> w_fs w !! p <> Some Directory ->
  report p r w =
    (Ok tt, mk_world (w_env w) (<[p := RegFile (Raw (json_dumps v))]> (w_fs w)) (w_now w) (w_service w)
              (w_trace w ++ [EvOpen p "w"; EvClose p; EvPrint (done_message p)])).
Proof.
  intros Hr Hd Hl Hp. unfold report, st_bind at 1, st_lift. rewrite Hr.
  rewrite (st_bind_Ok _ _ _ _ _ (write_log_run p v w Hd Hl Hp)).
  unfold emit, st_modify, add_event, set_fs. simpl.
  by rewrite insert_insert_eq, <- !app_assoc.
Qed.

Lemma report_fail (p : string) (r : AnalyzeResult) (ex : pyexc) (w : world) :
  result_dict r = Err ex -> report p r w = (Err ex, w).
Proof. intros Hr. unfold report, st_bind, st_lift. by rewrite Hr. Qed.

Lemma log_dir_ne_path (t : datetime) : LOG_DIR <> log_file_path t.
Proof. rewrite log_file_path_eq. discriminate. Qed.

(** After the request, a result the transform accepts is logged. *)
Lemma report_after_request (w : world) (e k : string) (data : file_data)
    (r : AnalyzeResult) (v : pyval) :
  result_dict r = Ok v -> w_fs w !! log_file_path (w_now w) <> Some Directory ->
  report (log_file_path (w_now w)) r (after_request w e k data) =
    (Ok tt, mk_world (w_env w)
              (<[log_file_path (w_now w) := RegFile (Raw (json_dumps v))]> (<[LOG_DIR := Directory]> (w_fs w)))
              (w_now w) (w_service w)
              (w_trace (after_request w e k data) ++
               [EvOpen (log_file_path (w_now w)) "w"; EvClose (log_file_path (w_now w));
                EvPrint (done_message (log_file_path (w_now w)))])).
Proof.
  intros Hr Hp. pose proof (log_dir_ne_path (w_now w)).
  rewrite (report_run _ r v); [done | done | apply dirname_log_file_path
    | simpl; apply lookup_insert_eq | simpl; by rewrite lookup_insert_ne].
Qed.

(** ** Properties of the script *)

(** C2 (functional).  A run whose configuration, input and log
    directory are in place, and whose analysis returns a result the
    transform accepts, succeeds.  It writes exactly one new file, the
    log [logs/analyze_result_<stamp>.json] holding [result_dict] of the
    result, and it creates [logs] if needed.  Its events are, in order:
    the client, the directory, the input opened, one request carrying
    the input's bytes, the input closed, the log opened and closed, and
    the message. *)
Theorem main_success (w : world) (e k : string) (data : file_data)
    (r : AnalyzeResult) (v : pyval) :
  config_set w e k -> w_fs w !! INPUT_FILE_PATH = Some (RegFile data) -> logs_ready w ->
  w_fs w !! log_file_path (w_now w) <> Some Directory ->
  w_service w e k MODEL_ID data = Succeeded r -> result_dict r = Ok v ->
  exists w', main w = (Ok tt, w') /\
    w_fs w' = <[log_file_path (w_now w) := RegFile (Raw (json_dumps v))]>
                (<[LOG_DIR := Directory]> (w_fs w)) /\
    w_trace w' = (w_trace w ++ [EvClientCreated e k] ++ makedirs_events w ++
      [EvOpen INPUT_FILE_PATH "rb"; EvRequest MODEL_ID data; EvClose INPUT_FILE_PATH;
       EvOpen (log_file_path (w_now w)) "w"; EvClose (log_file_path (w_now w));
       EvPrint (done_message (log_file_path (w_now w)))])%list.
Proof.
  intros Hc Hin Hl Hp Hs Hr. rewrite (main_after_request w e k data Hc Hin Hl), Hs. simpl.
  rewrite (report_after_request w e k data r v Hr Hp).
  eexists. split; [reflexivity |]. split; [done |]. unfold after_request. simpl.
  rewrite <- !app_assoc. simpl. by rewrite <- !app_assoc.
Qed.

(** C25 (roundtrip, end to end).  When the run succeeds and the
    analysis result's floats are finite, the log file it leaves holds a
    JSON text that reads back as exactly the dict of lines 63-88: the
    log is a faithful, machine-readable record of the result. *)
Theorem main_log_readable (w : world) (e k : string) (data : file_data)
    (r : AnalyzeResult) (v : pyval) :
  config_set w e k -> w_fs w !! INPUT_FILE_PATH = Some (RegFile data) -> logs_ready w ->
  w_fs w !! log_file_path (w_now w) <> Some Directory ->
  w_service w e k MODEL_ID data = Succeeded r -> result_dict r = Ok v ->
  result_floats_ok r = true ->
  exists w' bytes, main w = (Ok tt, w') /\
    w_fs w' !! log_file_path (w_now w) = Some (RegFile (Raw bytes)) /\
    json_loads bytes = Some v.
Proof.
  intros Hc Hin Hl Hp Hs Hr Hf. rewrite (main_after_request w e k data Hc Hin Hl), Hs. simpl.
  rewrite (report_after_request w e k data r v Hr Hp).
  eexists _, _. split; [reflexivity |]. split; [cbn [w_fs]; by simplify_map_eq |].
  by apply log_text_loads, (result_dict_wf r).
Qed.

(** C9 (error).  An unset or empty [DOCUMENT_INTELLIGENCE_ENDPOINT] or
    [DOCUMENT_INTELLIGENCE_KEY] raises [RuntimeError] before anything
    else, with the message of line 17 that names both variables.  No
    client is built, no file is opened or created, no request is sent:
    the world is left as it was. *)
Theorem main_config_error (w : world) :
  py_truthy_str (w_env w !! ENDPOINT_VAR) = false \/
  py_truthy_str (w_env w !! KEY_VAR) = false ->
  main w = (Err (RuntimeError CONFIG_ERROR_MSG), w).
Proof. intros H. unfold main. by rewrite (st_bind_Err _ _ _ _ _ (load_config_fail w H)). Qed.

(** C10 (error).  With the configuration set but no [sample.jpg], the
    run raises [FileNotFoundError] with the message of line 35 naming
    the input (and no [filename]), after building the client and before
    any request: the only event is the client's creation, and the file
    system is unchanged. *)
Theorem main_input_missing (w : world) (e k : string) :
  config_set w e k -> w_fs w !! INPUT_FILE_PATH = None ->
  main w = (Err (FileNotFoundError INPUT_ERROR_MSG None), add_event (EvClientCreated e k) w).
Proof.
  intros Hc Hn. unfold main.
  rewrite (st_bind_Ok _ _ _ _ _ (load_config_run w e k Hc)).
  rewrite (st_bind_Ok _ _ _ _ _ (make_client_run w e k)). cbv beta.
  by rewrite (st_bind_Err _ _ _ _ _ (check_input_fail (add_event (EvClientCreated e k) w) Hn)).
Qed.

(** C11 (error).  When the service fails, either on the request or on
    the poll, the run raises the service's error and writes no log.
    The file system differs from the initial one only by the [logs]
    directory, which [os.makedirs] created before the request.  The
    input file was opened and closed around the single request. *)
Theorem main_service_error (w : world) (e k : string) (data : file_data) (err : service_error) :
  config_set w e k -> w_fs w !! INPUT_FILE_PATH = Some (RegFile data) -> logs_ready w ->
  w_service w e k MODEL_ID data = BeginFailed err \/
  w_service w e k MODEL_ID data = PollFailed err ->
  exists w', main w = (Err (AzureError err), w') /\
    w_fs w' = <[LOG_DIR := Directory]> (w_fs w) /\
    w_trace w' = (w_trace w ++ [EvClientCreated e k] ++ makedirs_events w ++
      [EvOpen INPUT_FILE_PATH "rb"; EvRequest MODEL_ID data; EvClose INPUT_FILE_PATH])%list.
Proof.
  intros Hc Hin Hl Hs. rewrite (main_after_request w e k data Hc Hin Hl).
  exists (after_request w e k data).
  by destruct Hs as [-> | ->].
Qed.

(** C12 (error).  When the transform raises ([TypeError] or
    [AttributeError] on a result of an unexpected shape), the exception
    propagates and no log file is opened or written: no partial log
    exists. *)
Theorem main_transform_error (w : world) (e k : string) (data : file_data)
    (r : AnalyzeResult) (ex : pyexc) :
  config_set w e k -> w_fs w !! INPUT_FILE_PATH = Some (RegFile data) -> logs_ready w ->
  w_service w e k MODEL_ID data = Succeeded r -> result_dict r = Err ex ->
  exists w', main w = (Err ex, w') /\
    w_fs w' = <[LOG_DIR := Directory]> (w_fs w) /\
    w_trace w' = (w_trace w ++ [EvClientCreated e k] ++ makedirs_events w ++
      [EvOpen INPUT_FILE_PATH "rb"; EvRequest MODEL_ID data; EvClose INPUT_FILE_PATH])%list.
Proof.
  intros Hc Hin Hl Hs Hr. rewrite (main_after_request w e k data Hc Hin Hl), Hs. simpl.
  rewrite (report_fail _ r ex) by done. by eexists.
Qed.

(** ** Open files along a trace *)

Fixpoint remove_one (p : string) (h : list string) : list string :=
  match h with
  | [] => []
  | q :: h' => if String.eqb q p then h' else q :: remove_one p h'
  end.

(** The files still open after the events [evs], from the open set [h]. *)
Fixpoint open_after (h : list string) (evs : list event) : list string :=
  match evs with
  | [] => h
  | EvOpen p _ :: evs' => open_after (p :: h) evs'
  | EvClose p :: evs' => open_after (remove_one p h) evs'
  | _ :: evs' => open_after h evs'
  end.

Lemma open_after_app (h : list string) (a b : list event) :
  open_after h (a ++ b) = open_after (open_after h a) b.
Proof. revert h. induction a as [|[] a IH]; intros h; simpl; auto. Qed.

(** Since [w0], events were appended that leave the files [h] open. *)
Definition handles (w0 : world) (h : list string) (w : world) : Prop :=
  exists new, w_trace w = (w_trace w0 ++ new)%list /\ open_after [] new = h.

(** A statement that keeps an invariant on both outcomes. *)
Definition keeps {A} (I : world -> Prop) (c : M A) : Prop := triple I c (fun _ => I) (fun _ => I).

Lemma keeps_bind {A B} (I : world -> Prop) (c : M A) (k : A -> M B) :
  keeps I c -> (forall a, keeps I (k a)) -> keeps I (st_bind c k).
Proof. intros Hc Hk. by eapply triple_bind. Qed.

Lemma keeps_if {A} (I : world -> Prop) (b : bool) (c1 c2 : M A) :
  keeps I c1 -> keeps I c2 -> keeps I (if b then c1 else c2).
Proof. by destruct b. Qed.

(** Statements that do not change the world keep every invariant. *)
Lemma keeps_pure {A} (I : world -> Prop) (c : M A) :
  (forall w, snd (c w) = w) -> keeps I c.
Proof. intros H w Hw. specialize (H w). by destruct (c w) as [[] ?]; simpl in *; subst. Qed.

Lemma handles_event (w0 : world) (h : list string) (w : world) (ev : event) :
  handles w0 h w ->
  handles w0 (match ev with EvOpen p _ => p :: h | EvClose p => remove_one p h | _ => h end)
    (add_event ev w).
Proof.
  intros (new & Ht & Hh). exists (new ++ [ev])%list. simpl. rewrite Ht, app_assoc.
  split; [done |]. rewrite open_after_app, Hh. by destruct ev.
Qed.

Lemma handles_set_fs (w0 : world) (h : list string) (w : world) f :
  handles w0 h w -> handles w0 h (set_fs f w).
Proof. done. Qed.

#[export] Hint Resolve keeps_bind keeps_if handles_set_fs : hoare.

Definition is_file_event (ev : event) : bool :=
  match ev with EvOpen _ _ | EvClose _ => true | _ => false end.

Lemma handles_other (w0 : world) (h : list string) (w : world) (ev : event) :
  is_file_event ev = false -> handles w0 h w -> handles w0 h (add_event ev w).
Proof. intros Hf Hw. pose proof (handles_event w0 h w ev Hw). by destruct ev. Qed.

Lemma handles_open (w0 : world) (h : list string) (w : world) (p m : string) :
  handles w0 h w -> handles w0 (p :: h) (add_event (EvOpen p m) w).
Proof. apply (handles_event w0 h w (EvOpen p m)). Qed.

Lemma handles_close (w0 : world) (h : list string) (w : world) (p : string) :
  handles w0 (p :: h) w -> handles w0 h (add_event (EvClose p) w).
Proof.
  intros Hw. pose proof (handles_event w0 _ w (EvClose p) Hw) as H.
  simpl in H. by rewrite String.eqb_refl in H.
Qed.

(** Walk a world built by [add_event] and [set_fs] back to an assumption. *)
Ltac handles_solve :=
  repeat first
    [ assumption
    | apply handles_close
    | apply handles_open
    | apply handles_set_fs
    | apply handles_other; [reflexivity |] ].

Section Handles.
Context (w0 : world).

Lemma load_config_handles (h : list string) : keeps (handles w0 h) load_config.
Proof.
  apply keeps_pure, load_config_world.
Qed.

Lemma check_input_handles (h : list string) : keeps (handles w0 h) check_input.
Proof.
  apply keeps_pure, check_input_world.
Qed.

Lemma make_client_handles (h : list string) (e k : string) :
  keeps (handles w0 h) (make_client e k).
Proof. intros w Hw. simpl. handles_solve. Qed.

Lemma prepare_log_handles (h : list string) : keeps (handles w0 h) prepare_log.
Proof.
  intros w Hw. unfold prepare_log, st_bind, makedirs_exist_ok, now.
  destruct (w_fs w !! LOG_DIR) as [[]|]; simpl; handles_solve.
Qed.

(** The [with] block of lines 51-55 closes the input on both paths. *)
Lemma analyze_handles (h : list string) (c : client) : keeps (handles w0 h) (analyze c).
Proof.
  intros w Hw. unfold analyze, st_bind at 1, open_rb.
  destruct (w_fs w !! INPUT_FILE_PATH) as [[d|]|]; try done.
  unfold st_bind, st_finally, begin_analyze_document. simpl.
  destruct (w_service _ _ _ _ _); simpl; handles_solve.
Qed.

(** The [with] block of lines 94-95 closes the log. *)
Lemma report_handles (h : list string) (p : string) (r : AnalyzeResult) :
  keeps (handles w0 h) (report p r).
Proof.
  intros w Hw. unfold report, st_bind at 1, st_lift.
  destruct (result_dict r) as [v|]; [| done].
  unfold write_log, st_bind, open_w, st_finally, close, emit, st_modify.
  destruct (if String.eqb (dirname p) "" then _ else _) as [[]|]; try done.
  destruct (w_fs w !! p) as [[]|]; try rewrite (json_dump_run v p _ "") by (cbn; by simplify_map_eq);
    simpl; handles_solve.
Qed.
End Handles.

#[export] Hint Resolve load_config_handles check_input_handles make_client_handles
  prepare_log_handles analyze_handles report_handles : hoare.

(** ** What a run leaves unchanged *)

(** Since [w0]: the clock is the same, and no path other than [logs]
    and the log path of [w0]'s time has changed. *)
Definition frame (w0 w : world) : Prop :=
  w_now w = w_now w0 /\
  forall p, p <> LOG_DIR -> p <> log_file_path (w_now w0) -> w_fs w !! p = w_fs w0 !! p.

Lemma frame_add_event (w0 w : world) (ev : event) : frame w0 w -> frame w0 (add_event ev w).
Proof. done. Qed.

(** A statement that changes neither the files nor the clock. *)
Lemma keeps_frame_fs {A} (w0 : world) (c : M A) :
  (forall w, w_fs (snd (c w)) = w_fs w /\ w_now (snd (c w)) = w_now w) -> keeps (frame w0) c.
Proof.
  intros H w [Hn Hf]. destruct (H w) as [Hfs Hnow].
  destruct (c w) as [[] w']; simpl in *; (split; [congruence | intros p ? ?; rewrite Hfs; auto]).
Qed.

Lemma analyze_fs (c : client) (w : world) :
  w_fs (snd (analyze c w)) = w_fs w /\ w_now (snd (analyze c w)) = w_now w.
Proof.
  unfold analyze, st_bind, st_finally, open_rb, begin_analyze_document.
  destruct (w_fs w !! INPUT_FILE_PATH) as [[d|]|]; simpl; try done.
  destruct (w_service _ _ _ _ _); split; reflexivity.
Qed.

Lemma prepare_log_frame (w0 : world) :
  triple (frame w0) prepare_log
    (fun path w => path = log_file_path (w_now w0) /\ frame w0 w) (fun _ => frame w0).
Proof.
  intros w [Hn Hf]. unfold prepare_log, st_bind, makedirs_exist_ok, now.
  destruct (w_fs w !! LOG_DIR) as [[]|]; simpl; rewrite ?Hn; try done.
  split; [done |]. split; [done |]. intros p Hp Hp'. simpl.
  rewrite lookup_insert_ne by done. auto.
Qed.

Lemma report_frame (w0 : world) (r : AnalyzeResult) :
  keeps (frame w0) (report (log_file_path (w_now w0)) r).
Proof.
  intros w [Hn Hf]. unfold report, st_bind at 1, st_lift.
  destruct (result_dict r) as [v|]; [| done].
  unfold write_log, st_bind, open_w, st_finally, close, emit, st_modify.
  destruct (if String.eqb _ "" then _ else _) as [[]|]; try done.
  destruct (w_fs w !! _) as [[]|];
    try rewrite (json_dump_run v _ _ "") by (cbn; by simplify_map_eq); simpl; try done;
    (split; [done | intros p Hp Hp'; simpl; rewrite !lookup_insert_ne by done; auto]).
Qed.

(** C13 (invariant).  On every path, error paths included, every file
    the script opens is closed again: the events a run appends leave no
    file open.  This is the scoped release of spec section 5. *)
Theorem main_closes_files (w : world) :
  exists new, w_trace (snd (main w)) = (w_trace w ++ new)%list /\ open_after [] new = [].
Proof.
  assert (keeps (handles w []) main) as Hk by (unfold main, report; eauto 10 with hoare).
  specialize (Hk w (ex_intro _ [] (conj (eq_sym (app_nil_r _)) eq_refl))).
  by destruct (main w) as [[] w'].
Qed.

(** C14 (safety).  A run, whatever its outcome, changes no file or
    directory other than [logs] and the log path of its start time.  In
    particular the input file is never modified. *)
Theorem main_frame (w : world) (p : string) :
  p <> LOG_DIR -> p <> log_file_path (w_now w) ->
  w_fs (snd (main w)) !! p = w_fs w !! p.
Proof.
  intros Hp Hp'.
  assert (triple (frame w) main (fun _ => frame w) (fun _ => frame w)) as Hk.
  { unfold main.
    apply triple_bind with (Q := fun _ => frame w);
      [apply keeps_frame_fs; intros w'; by rewrite load_config_world | intros cfg].
    apply triple_bind with (Q := fun _ => frame w); [by intros w' ? | intros c].
    apply triple_bind with (Q := fun _ => frame w);
      [apply keeps_frame_fs; intros w'; by rewrite check_input_world | intros _].
    eapply triple_bind; [apply prepare_log_frame | intros path w' [-> Hf]].
    apply (triple_bind _ _ (frame w) (fun _ => frame w));
      [apply keeps_frame_fs, analyze_fs | intros r; apply report_frame | done]. }
  specialize (Hk w (conj eq_refl (fun _ _ _ => eq_refl))).
  destruct (main w) as [[] w'] eqn:E; simpl; destruct Hk as [_ Hf]; auto.
Qed.

(** ** The error taxonomy of the spec *)

(** Spec section 7: the outcome classes of a run. *)
Inductive outcome :=
  | ConfigError | InputNotFound | ServiceError | MissingField | Success | OtherError.

(** The class of the exception the script ends with. *)
Definition classify (r : res unit) : outcome :=
  match r with
  | Ok _ => Success
  | Err (RuntimeError _) => ConfigError
  | Err (FileNotFoundError _ _) => InputNotFound
  | Err (AzureError _) => ServiceError
  | Err TypeError | Err AttributeError => MissingField
  | Err _ => OtherError
  end.

(** The outcome spec sections 6-7 promise, checked in their order: the
    variables, the input, the service, the shape of the result.  The
    spec does not say what happens when the input path is a directory. *)
Definition spec_outcome (w : world) : outcome :=
  match w_env w !! ENDPOINT_VAR, w_env w !! KEY_VAR with
  | Some e, Some k =>
      match w_fs w !! INPUT_FILE_PATH with
      | None => InputNotFound
      | Some Directory => OtherError
      | Some (RegFile data) =>
          match w_service w e k MODEL_ID data with
          | BeginFailed _ | PollFailed _ => ServiceError
          | Succeeded r => match Spec.abstract r with Some _ => Success | None => MissingField end
          end
      end
  | _, _ => ConfigError
  end.

(** The assumptions of the spec that the code does not check: a set
    variable is not empty, [logs] can be created, no directory has the
    log's name, and the service honours the result shape of section 3. *)
Definition spec_assumptions (w : world) : Prop :=
  (forall v, w_env w !! ENDPOINT_VAR = Some v -> v <> "") /\
  (forall v, w_env w !! KEY_VAR = Some v -> v <> "") /\
  logs_ready w /\ w_fs w !! log_file_path (w_now w) <> Some Directory /\
  (forall e k data r, w_service w e k MODEL_ID data = Succeeded r -> is_Some (Spec.abstract r)).

Lemma analyze_input_dir (c : client) (w : world) :
  w_fs w !! INPUT_FILE_PATH = Some Directory ->
  analyze c w = (Err (IsADirectoryError INPUT_FILE_PATH), w).
Proof. intros Hd. unfold analyze, st_bind, open_rb. by rewrite Hd. Qed.

(** C3 (refinement).  Under the spec's own assumptions, the class of
    the script's outcome is the one spec sections 6-7 prescribe, checked
    in the spec's order: configuration, then input, then service, then
    result shape. *)
Theorem main_refines_spec (w : world) :
  spec_assumptions w -> classify (fst (main w)) = spec_outcome w.
Proof.
  intros (He & Hk & Hl & Hp & Hs). unfold spec_outcome.
  destruct (w_env w !! ENDPOINT_VAR) as [e|] eqn:Ee;
    [destruct (w_env w !! KEY_VAR) as [k|] eqn:Ek |];
    try (unfold main; rewrite (st_bind_Err _ _ _ _ _ (load_config_fail w ltac:(rewrite ?Ee, ?Ek; auto)));
         reflexivity).
  assert (config_set w e k) as Hc by (split_and!; eauto).
  destruct (w_fs w !! INPUT_FILE_PATH) as [[data|]|] eqn:Ein.
  - rewrite (main_after_request w e k data Hc Ein Hl).
    destruct (w_service w e k MODEL_ID data) as [| |r] eqn:Es; simpl; try done.
    destruct (Hs _ _ _ _ Es) as [s Hsr]. rewrite Hsr.
    destruct (result_dict_Ok_shape r (abstract_shape_ok r s Hsr)) as [ds Hd].
    by rewrite (report_after_request w e k data r _ Hd Hp).
  - rewrite (main_reaches_analysis w e k Hc) by (rewrite ?Ein; eauto).
    rewrite mkdir_logs_eq by done. unfold st_bind at 1.
    by rewrite analyze_input_dir by (simpl; by rewrite lookup_insert_ne).
  - unfold main.
    rewrite (st_bind_Ok _ _ _ _ _ (load_config_run w e k Hc)).
    rewrite (st_bind_Ok _ _ _ _ _ (make_client_run w e k)). cbv beta.
    by rewrite (st_bind_Err _ _ _ _ _ (check_input_fail (add_event (EvClientCreated e k) w) Ein)).
Qed.

(** ** Concrete runs *)

Module Worlds.
Definition endpoint_url : string := "https://example.cognitiveservices.azure.com/".

Definition env_ok : gmap string string :=
  <[ENDPOINT_VAR := endpoint_url]> (<[KEY_VAR := "key"]> ∅).

Definition fs_ok : gmap string fs_entry := <[INPUT_FILE_PATH := RegFile (Raw "JPEG")]> ∅.

Definition answering (s : svc_result) : string -> string -> string -> file_data -> svc_result :=
  fun _ _ _ _ => s.

Definition run_world (env : gmap string string) (fs : gmap string fs_entry) (s : svc_result) : world :=
  mk_world env fs t_run1 (answering s) [].

Definition w_ok : world := run_world env_ok fs_ok (Succeeded Examples.scenario).

End Worlds.

Import Worlds.

Lemma main_success_witness :
  exists w', main w_ok = (Ok tt, w') /\
    w_fs w' = <[log_file_path t_run1 := RegFile (Raw (json_dumps Examples.scenario_log))]>
                (<[LOG_DIR := Directory]> fs_ok) /\
    w_trace w' = [EvClientCreated endpoint_url "key"; EvMakedirs LOG_DIR;
      EvOpen INPUT_FILE_PATH "rb"; EvRequest MODEL_ID (Raw "JPEG"); EvClose INPUT_FILE_PATH;
      EvOpen (log_file_path t_run1) "w"; EvClose (log_file_path t_run1);
      EvPrint (done_message (log_file_path t_run1))].
Proof.
  apply (main_success w_ok endpoint_url "key" (Raw "JPEG") Examples.scenario Examples.scenario_log).
  - split_and!; [reflexivity | discriminate | reflexivity | discriminate].
  - reflexivity.
  - left. reflexivity.
  - vm_compute. discriminate.
  - reflexivity.
  - vm_compute. reflexivity.
Defined.

Lemma main_log_readable_witness :
  exists w' bytes, main w_ok = (Ok tt, w') /\
    w_fs w' !! log_file_path t_run1 = Some (RegFile (Raw bytes)) /\
    json_loads bytes = Some Examples.scenario_log.
Proof.
  apply (main_log_readable w_ok endpoint_url "key" (Raw "JPEG") Examples.scenario Examples.scenario_log).
  - split_and!; [reflexivity | discriminate | reflexivity | discriminate].
  - reflexivity.
  - left. reflexivity.
  - vm_compute. discriminate.
  - reflexivity.
  - vm_compute. reflexivity.
  - vm_compute. reflexivity.
Defined.

(** An empty key is rejected like a missing one. *)
Lemma main_config_error_witness :
  main (run_world (<[KEY_VAR := ""]> env_ok) fs_ok (Succeeded Examples.scenario)) =
  (Err (RuntimeError CONFIG_ERROR_MSG), run_world (<[KEY_VAR := ""]> env_ok) fs_ok (Succeeded Examples.scenario)).
Proof. apply main_config_error. right. reflexivity. Defined.

Lemma main_input_missing_witness :
  main (run_world env_ok ∅ (Succeeded Examples.scenario)) =
  (Err (FileNotFoundError INPUT_ERROR_MSG None),
   add_event (EvClientCreated endpoint_url "key") (run_world env_ok ∅ (Succeeded Examples.scenario))).
Proof.
  apply main_input_missing; [| reflexivity].
  split_and!; [reflexivity | discriminate | reflexivity | discriminate].
Defined.

(** A 401 from the service: no log, only the [logs] directory. *)
Lemma main_service_error_witness :
  exists w', main (run_world env_ok fs_ok (BeginFailed (HttpResponseError 401))) =
    (Err (AzureError (HttpResponseError 401)), w') /\
    w_fs w' = <[LOG_DIR := Directory]> fs_ok /\
    w_trace w' = [EvClientCreated endpoint_url "key"; EvMakedirs LOG_DIR;
      EvOpen INPUT_FILE_PATH "rb"; EvRequest MODEL_ID (Raw "JPEG"); EvClose INPUT_FILE_PATH].
Proof.
  apply (main_service_error (run_world env_ok fs_ok (BeginFailed (HttpResponseError 401))) endpoint_url "key" (Raw "JPEG")).
  - split_and!; [reflexivity | discriminate | reflexivity | discriminate].
  - reflexivity.
  - left. reflexivity.
  - left. reflexivity.
Defined.

(** The SDK 1.x result shape: [AttributeError], and no log. *)
Lemma main_transform_error_witness :
  exists w', main (run_world env_ok fs_ok (Succeeded Examples.flat_result)) = (Err AttributeError, w') /\
    w_fs w' = <[LOG_DIR := Directory]> fs_ok /\
    w_trace w' = [EvClientCreated endpoint_url "key"; EvMakedirs LOG_DIR;
      EvOpen INPUT_FILE_PATH "rb"; EvRequest MODEL_ID (Raw "JPEG"); EvClose INPUT_FILE_PATH].
Proof.
  apply (main_transform_error (run_world env_ok fs_ok (Succeeded Examples.flat_result)) endpoint_url "key" (Raw "JPEG") Examples.flat_result).
  - split_and!; [reflexivity | discriminate | reflexivity | discriminate].
  - reflexivity.
  - left. reflexivity.
  - reflexivity.
  - vm_compute. reflexivity.
Defined.

Lemma main_frame_witness :
  w_fs (snd (main w_ok)) !! INPUT_FILE_PATH = w_fs w_ok !! INPUT_FILE_PATH.
Proof. apply main_frame; [discriminate | vm_compute; discriminate]. Defined.

Lemma main_refines_spec_witness :
  classify (fst (main w_ok)) = spec_outcome w_ok /\ spec_outcome w_ok = Success.
Proof.
  split; [| vm_compute; reflexivity].
  apply main_refines_spec. split_and!.
  - intros v Hv. vm_compute in Hv. injection Hv as <-. discriminate.
  - intros v Hv. vm_compute in Hv. injection Hv as <-. discriminate.
  - left. reflexivity.
  - vm_compute. discriminate.
  - intros e k data r Hr. vm_compute in Hr. injection Hr as <-. vm_compute. eauto.
Defined.
